(** * ACR-PCR Overload Classifier: schema-driven input reconciliation

    A shallow embedding of the two Streamlit front-ends of the repository,
    [app.py] (multi-aircraft batch flow) and [app.py.py] (single-row flow),
    and the properties of their helper functions and submit handlers.

    Python values are modelled by an inductive type, [str] by UTF-8 byte
    strings, [float] by IEEE binary64 values ([spec_float]), dictionaries by
    insertion-ordered association lists, data frames column-major with their
    labels, exceptions by an error result, and the Streamlit calls and the
    calls into the loaded pipeline by a trace of events. *)

From Stdlib Require Import ZArith NArith Ascii String SpecFloat.
From stdpp Require Import base list strings pretty sorting.

Local Open Scope Z_scope.

(** ** Python [str] as UTF-8 byte strings *)

Module PyStr.

Definition byte (a : ascii) : N := N_of_ascii a.

Definition in_range (lo hi : N) (a : ascii) : bool :=
  ((lo <=? byte a)%N && (byte a <=? hi)%N)%bool.

Definition is_byte (n : N) (a : ascii) : bool := (byte a =? n)%N.

(** [str.isspace] for the code points below U+0080:
    U+0009..U+000D, U+001C..U+001F and U+0020. *)
Definition space1 (a : ascii) : bool :=
  in_range 9 13 a || in_range 28 32 a.

(** U+0085 (C2 85) and U+00A0 (C2 A0). *)
Definition space2 (a b : ascii) : bool :=
  is_byte 194 a && (is_byte 133 b || is_byte 160 b).

(** U+1680 (E1 9A 80), U+2000..U+200A (E2 80 80..8A), U+2028, U+2029
    (E2 80 A8, E2 80 A9), U+202F (E2 80 AF), U+205F (E2 81 9F) and
    U+3000 (E3 80 80). *)
Definition space3 (a b c : ascii) : bool :=
  (is_byte 225 a && is_byte 154 b && is_byte 128 c)
  || (is_byte 226 a && is_byte 128 b
      && (in_range 128 138 c || in_range 168 169 c || is_byte 175 c))
  || (is_byte 226 a && is_byte 129 b && is_byte 159 c)
  || (is_byte 227 a && is_byte 128 b && is_byte 128 c).

(** [s.lstrip()] *)
Fixpoint lstrip (s : string) : string :=
  match s with
  | String a s1 =>
      if space1 a then lstrip s1 else
      match s1 with
      | String b s2 =>
          if space2 a b then lstrip s2 else
          match s2 with
          | String c s3 => if space3 a b c then lstrip s3 else s
          | EmptyString => s
          end
      | EmptyString => s
      end
  | EmptyString => EmptyString
  end.

(** [lstrip] on the reversed byte sequence: the bytes of a character come
    last byte first. *)
Fixpoint lstrip_rev (s : string) : string :=
  match s with
  | String a s1 =>
      if space1 a then lstrip_rev s1 else
      match s1 with
      | String b s2 =>
          if space2 b a then lstrip_rev s2 else
          match s2 with
          | String c s3 => if space3 c b a then lstrip_rev s3 else s
          | EmptyString => s
          end
      | EmptyString => s
      end
  | EmptyString => EmptyString
  end.

(** [s.rstrip()] *)
Definition rstrip (s : string) : string :=
  String.rev (lstrip_rev (String.rev s)).

(** [s.strip()] *)
Definition strip (s : string) : string := rstrip (lstrip s).

(** [s.replace(old, new)] for a one-character [old]. *)
Fixpoint replace_char (old : ascii) (new : string) (s : string) : string :=
  match s with
  | String a s' =>
      if decide (a = old) then new +:+ replace_char old new s'
      else String a (replace_char old new s')
  | EmptyString => EmptyString
  end.

(** Printable ASCII and the whitespace of C ([\t \n \v \f \r] and the
    space) only. *)
Definition plain_char (a : ascii) : bool :=
  in_range 9 13 a || in_range 32 126 a.

Fixpoint is_plain (s : string) : bool :=
  match s with
  | String a s' => plain_char a && is_plain s'
  | EmptyString => true
  end.

Definition lower_char (a : ascii) : ascii :=
  if in_range 65 90 a then ascii_of_N (byte a + 32) else a.

Fixpoint lower (s : string) : string :=
  match s with
  | String a s' => String (lower_char a) (lower s')
  | EmptyString => EmptyString
  end.

End PyStr.

(** ** Python [float]: IEEE binary64 *)

Module PyFloat.
Import PyStr.

Definition prec : Z := 53.
Definition emax : Z := 1024.

(** The binary64 value nearest to [m * 10 ^ e] (ties to even), [m >= 0],
    with the sign [neg]; out of range gives an infinity. *)
Definition of_decimal (neg : bool) (m e : Z) : spec_float :=
  if m =? 0 then S754_zero neg
  else if 0 <=? e then
    binary_normalize prec emax (cond_Zopp neg (m * 10 ^ e)) 0 neg
  else
    let '(q, e', l) := SFdiv_core_binary prec emax m 0 (10 ^ (- e)) 0 in
    binary_round_aux prec emax neg q e' l.

(** [float(n)] for an [int]: [None] stands for OverflowError. *)
Definition of_int (n : Z) : option spec_float :=
  match binary_normalize prec emax n 0 false with
  | S754_infinity _ => None
  | f => Some f
  end.

Definition is_digit (a : ascii) : bool := in_range 48 57 a.
Definition digit_val (a : ascii) : Z := Z.of_N (byte a) - 48.

(** Underscores are dropped when each stands between two digits
    (PEP 515); [prev] is the character before [s]. *)
Fixpoint drop_underscores (prev : ascii) (s : string) : option string :=
  match s with
  | String c s' =>
      if is_byte 95 c then
        if is_digit prev then drop_underscores c s' else None
      else if is_byte 95 prev && negb (is_digit c) then None
      else String c <$> drop_underscores c s'
  | EmptyString => if is_byte 95 prev then None else Some EmptyString
  end.

(** The whitespace [float] itself skips around an ASCII literal:
    space, \t, \n, \v, \f, \r. *)
Definition cspace (a : ascii) : bool := in_range 9 13 a || is_byte 32 a.

Fixpoint clstrip (s : string) : string :=
  match s with
  | String a s' => if cspace a then clstrip s' else s
  | EmptyString => EmptyString
  end.

Definition cstrip (s : string) : string :=
  String.rev (clstrip (String.rev (clstrip s))).

Definition parse_sign (s : string) : bool * string :=
  match s with
  | String a s' =>
      if is_byte 45 a then (true, s')
      else if is_byte 43 a then (false, s')
      else (false, s)
  | EmptyString => (false, s)
  end.

(** Reads a run of decimal digits: the accumulated value, the number of
    digits read and the rest of the input. *)
Fixpoint digits (acc : Z) (n : nat) (s : string) : Z * nat * string :=
  match s with
  | String c s' =>
      if is_digit c then digits (10 * acc + digit_val c) (S n) s'
      else (acc, n, s)
  | EmptyString => (acc, n, s)
  end.

(** [e] or [E], an optional sign and at least one digit. *)
Definition parse_exponent (s : string) : option Z :=
  match s with
  | EmptyString => Some 0
  | String c s' =>
      if is_byte 101 c || is_byte 69 c then
        let '(neg, s'') := parse_sign s' in
        match digits 0 0 s'' with
        | (_, O, _) => None
        | (x, _, EmptyString) => Some (cond_Zopp neg x)
        | _ => None
        end
      else None
  end.

(** [digitpart ["."] [digitpart]] with at least one digit, then an
    optional exponent. *)
Definition parse_number (neg : bool) (s : string) : option spec_float :=
  let '(m1, n1, r1) := digits 0 0 s in
  let '(m, n2, r2) :=
    match r1 with
    | String c r1' => if is_byte 46 c then digits m1 0 r1' else (m1, O, r1)
    | EmptyString => (m1, O, r1)
    end in
  match (n1 + n2)%nat with
  | O => None
  | _ => x ← parse_exponent r2; Some (of_decimal neg m (x - Z.of_nat n2))
  end.

(** [float(s)] for a string of printable ASCII and C whitespace; [None]
    stands for ValueError. *)
Definition of_ascii (s : string) : option spec_float :=
  t ← drop_underscores zero s;
  let '(neg, u) := parse_sign (cstrip t) in
  let w := lower u in
  if decide (w = "inf" ∨ w = "infinity") then Some (S754_infinity neg)
  else if decide (w = "nan") then Some S754_nan
  else parse_number neg u.

End PyFloat.

(** ** Values, exceptions and results *)

Inductive value : Type :=
  | PyNone
  | PyBool (b : bool)
  | PyInt (n : Z)
  | PyFloat (f : spec_float)
  | PyStr (s : string).

Inductive exn : Type :=
  | ValueError (msg : string)
  | TypeError (msg : string)
  | OverflowError (msg : string)
  | IndexError (msg : string)
  | AttributeError (msg : string)
  | KeyError (key : string)
  | NameError (name : string)
  | OtherError (msg : string).

(** [str(e)] *)
Definition exn_str (e : exn) : string :=
  match e with
  | ValueError msg | TypeError msg | OverflowError msg | IndexError msg
  | AttributeError msg | OtherError msg => msg
  | KeyError key => "'" +:+ key +:+ "'"
  | NameError name => "name '" +:+ name +:+ "' is not defined"
  end.

(** The result of code that may raise. *)
Inductive res (A : Type) : Type :=
  | Ok (a : A)
  | Err (e : exn).
Arguments Ok {A} a.
Arguments Err {A} e.

Global Instance res_ret : MRet res := λ A a, Ok a.
Global Instance res_bind : MBind res := λ A B k m,
  match m with
  | Ok a => k a
  | Err e => Err e
  end.

(** [try: m except Exception as e: handler e] *)
Definition try_except {A} (m : res A) (handler : exn → res A) : res A :=
  match m with
  | Ok a => Ok a
  | Err e => handler e
  end.

(** [for x in l: s = body s x] *)
Fixpoint for_in {S A} (l : list A) (body : S → A → res S) (s : S) : res S :=
  match l with
  | [] => Ok s
  | x :: l' => s' ← body s x; for_in l' body s'
  end.

Definition raises {A} (m : res A) : Prop :=
  match m with
  | Ok _ => False
  | Err _ => True
  end.

(** What the embedding takes from the Python runtime and from pandas
    without modelling it. *)
Record PyRuntime : Type := {
  (** [float(s)] for a string with a character that is neither printable
      ASCII nor C whitespace (a decimal digit or a space of another
      script, a control character); [None] for ValueError *)
  float_of_other : string → option spec_float;
  (** [str(x)] for a float *)
  repr_float : spec_float → string;
  (** [round(3)] of numpy *)
  round3 : spec_float → spec_float;
  (** the format [:.3f] *)
  format3 : spec_float → string;
  (** [pd.Series(df[col]).dropna().astype(str).str.strip()] when several
      columns of the sheet carry the label [col], so that [df[col]] is a
      frame: the columns selected, to the strings obtained or an error *)
  strings_of_frame : list (list value) → res (list string)
}.

Definition float_of_str (rt : PyRuntime) (s : string) : option spec_float :=
  if PyStr.is_plain s then PyFloat.of_ascii s else float_of_other rt s.

(** [float(v)] *)
Definition py_float (rt : PyRuntime) (v : value) : res value :=
  match v with
  | PyNone =>
      Err (TypeError
        "float() argument must be a string or a real number, not 'NoneType'")
  | PyBool b => Ok (PyFloat (PyFloat.of_decimal false (if b then 1 else 0) 0))
  | PyInt n =>
      match PyFloat.of_int n with
      | Some f => Ok (PyFloat f)
      | None => Err (OverflowError "int too large to convert to float")
      end
  | PyFloat f => Ok (PyFloat f)
  | PyStr s =>
      match float_of_str rt s with
      | Some f => Ok (PyFloat f)
      | None => Err (ValueError "could not convert string to float")
      end
  end.

(** [str(v)] *)
Definition py_str (rt : PyRuntime) (v : value) : string :=
  match v with
  | PyNone => "None"
  | PyBool b => if b then "True" else "False"
  | PyInt n => pretty n
  | PyFloat f => repr_float rt f
  | PyStr s => s
  end.

(** [v in (None, "")]: only [None] equals [None], only the empty string
    equals the empty string. *)
Definition in_none_or_empty (v : value) : bool :=
  match v with
  | PyNone => true
  | PyStr EmptyString => true
  | _ => false
  end.

(** [pd.isna(v)] *)
Definition isna (v : value) : bool :=
  match v with
  | PyNone => true
  | PyFloat S754_nan => true
  | _ => false
  end.

(** ** Dictionaries with string keys, in insertion order *)

Abbreviation dict V := (list (string * V)).

Section dict.
Context {V : Type}.

(** [d.get(k)] *)
Fixpoint dict_get (d : dict V) (k : string) : option V :=
  match d with
  | [] => None
  | (k', v) :: d' => if decide (k' = k) then Some v else dict_get d' k
  end.

(** [d[k] = v]: an existing key keeps its place, a new key goes last. *)
Fixpoint dict_set (k : string) (v : V) (d : dict V) : dict V :=
  match d with
  | [] => [(k, v)]
  | (k', v') :: d' =>
      if decide (k' = k) then (k, v) :: d' else (k', v') :: dict_set k v d'
  end.

(** [dict(d)]: a fresh dictionary with the same items. An assignment to
    the copy leaves the original as it was, which the functional
    [dict_set] gives; the values themselves are immutable. *)
Definition dict_copy (d : dict V) : dict V := d.

Definition dict_keys (d : dict V) : list string := d.*1.

(** [d[k]] *)
Definition dict_getitem (d : dict V) (k : string) : res V :=
  match dict_get d k with
  | Some v => Ok v
  | None => Err (KeyError k)
  end.
End dict.

(** ** Data frames *)

(** Column-major, with the labels in order; [index_len] is the number of
    rows. Cells hold Python objects: the dtype numpy picks for a column
    is not modelled. *)
Record DataFrame : Type := {
  index_len : nat;
  frame : list (string * list value)
}.

Definition NaN : value := PyFloat S754_nan.

Definition columns (X : DataFrame) : list string := (frame X).*1.

(** The values in order of first occurrence ([Series.unique], and the
    union of the keys of a list of records). *)
Fixpoint unique {A} `{EqDecision A} (l : list A) : list A :=
  match l with
  | [] => []
  | x :: l' => x :: filter (λ y, y ≠ x) (unique l')
  end.

Definition record_column (rows : list (dict value)) (c : string)
  : list value :=
  (λ r, default NaN (dict_get r c)) <$> rows.

(** [pd.DataFrame(rows)] for a list of dicts: the columns are the keys in
    order of first occurrence, a key missing from a row gives NaN. *)
Definition DataFrame_of_records (rows : list (dict value)) : DataFrame :=
  {| index_len := length rows;
     frame := (λ c, (c, record_column rows c))
                <$> unique (mjoin (dict_keys <$> rows)) |}.

(** [X.reindex(columns=cols)] on a frame with distinct labels: the columns
    are [cols], a label [X] lacks gives a column of NaN. *)
Definition reindex (cols : list string) (X : DataFrame) : DataFrame :=
  {| index_len := index_len X;
     frame := (λ c, (c, default (replicate (index_len X) NaN)
                                (dict_get (frame X) c))) <$> cols |}.

(** [X[c]] for a label among the columns: every column that carries the
    label, in order. One column is a Series; a label listed twice gives a
    frame of several. *)
Definition df_select (X : DataFrame) (c : string) : list (list value) :=
  (filter (λ p, p.1 = c) (frame X)).*2.

(** A Series on the index [0 .. length col - 1] aligned on the index
    [0 .. n - 1]: cut, or filled with NaN. *)
Definition align (n : nat) (col : list value) : list value :=
  take n col ++ replicate (n - length col) NaN.

(** [X.insert(loc, name, value)], where [value] is what [df_select] gave:
    a label [X] has already is refused, then a frame of several columns,
    then a position past the last column; a Series is aligned on the index
    of [X]. *)
Definition df_insert (loc : nat) (name : string) (value : list (list value))
    (X : DataFrame) : res DataFrame :=
  if decide (name ∈ columns X) then
    Err (ValueError ("cannot insert " +:+ name +:+ ", already exists"))
  else
    match value with
    | [col] =>
        if decide (loc ≤ length (frame X))%nat then
          Ok {| index_len := index_len X;
                frame := take loc (frame X)
                           ++ (name, align (index_len X) col)
                           :: drop loc (frame X) |}
        else Err (IndexError "index out of bounds")
    | _ => Err (ValueError "Expected a one-dimensional object")
    end.

(** [X[name] = col] for an array [col]: its length has to be the number of
    rows. *)
Definition df_setitem (name : string) (col : list value) (X : DataFrame)
  : res DataFrame :=
  if decide (length col = index_len X) then
    Ok {| index_len := index_len X; frame := dict_set name col (frame X) |}
  else
    Err (ValueError "Length of values does not match length of index").

(** ** The loaded pipeline *)

(** A transformer of the preprocessing stage: opaque. *)
Inductive Transformer : Type := OpaqueTransformer (repr : string).

(** A step of the pipeline: its [transformers_] attribute when it has one
    (a ColumnTransformer), and whether it has a [predict_proba]. The
    column specification of a triple is taken to be a list of column
    names, the shape the specification gives the triples: on such a list
    [list(cols)] is a copy. Another specification (a slice, on which
    [list] raises TypeError, or a single string, which [list] splits into
    characters) is outside this type. *)
Record Step : Type := {
  transformers_ : option (list (string * Transformer * list string));
  has_predict_proba : bool
}.

Record Pipeline : Type := {
  named_steps : dict Step;
  predict : DataFrame → res (list Z);
  predict_proba : DataFrame → res (list (list spec_float))
}.

Definition getattr_transformers_ (prep : Step)
  : res (list (string * Transformer * list string)) :=
  match transformers_ prep with
  | Some ts => Ok ts
  | None => Err (AttributeError "object has no attribute 'transformers_'")
  end.

(** ** Helpers shared by [app.py] and [app.py.py] *)

(** [get_expected_input_columns(pipeline)] *)
Definition get_expected_input_columns (pipeline : Pipeline)
  : res (list string * list string) :=
  prep ← dict_getitem (named_steps pipeline) "prep";
  ts ← getattr_transformers_ prep;
  Ok (fold_left
        (λ '(num_cols, cat_cols) '(name, trans, cols),
           if decide (name = "num") then (cols, cat_cols)
           else if decide (name = "cat") then (num_cols, cols)
           else (num_cols, cat_cols))
        ts ([], [])).

(** The outcome of the two [pd.read_excel] calls on an upload: the sheet
    named "data" and the first sheet, each a list of labelled columns or an
    error. *)
Record Workbook : Type := {
  read_data_sheet : res (list (value * list value));
  read_first_sheet : res (list (value * list value))
}.

Definition target_columns : list string :=
  ["Aircraft Name"; "Subgrade soil type"; "Subgrade Categories (FAA)"].

(** The sheet read: the one named "data", or else the first one. *)
Definition load_sheet (wb : Workbook) : res (list (value * list value)) :=
  try_except (read_data_sheet wb) (λ _, read_first_sheet wb).

(** [df.columns = [str(c).strip() for c in df.columns]] *)
Definition relabel (rt : PyRuntime) (df : list (value * list value))
  : dict (list value) :=
  (λ '(c, cells), (PyStr.strip (py_str rt c), cells)) <$> df.

(** [pd.Series(df[col]).dropna().astype(str).str.strip()] *)
Definition stripped_strings (rt : PyRuntime) (df : dict (list value))
    (col : string) : res (list string) :=
  match filter (λ p, p.1 = col) df with
  | [(_, cells)] =>
      Ok ((λ v, PyStr.strip (py_str rt v)) <$> filter (λ v, ¬ isna v) cells)
  | several => strings_of_frame rt (several.*2)
  end.

(** [sorted([v for v in vals.unique().tolist() if v != ""])]: strings
    compare by code point, which is the order of their UTF-8 bytes. *)
Definition sorted_choices (vals : list string) : list string :=
  merge_sort String.le (filter (λ v, v ≠ "") (unique vals)).

(** [extract_choices_from_excel(file_bytes_or_path)] *)
Definition extract_choices_from_excel (rt : PyRuntime) (wb : Workbook)
  : res (dict (list string)) :=
  df ← load_sheet wb;
  let df := relabel rt df in
  for_in target_columns
    (λ choices col,
       if decide (col ∈ df.*1) then
         vals ← stripped_strings rt df col;
         let vals := sorted_choices vals in
         Ok (dict_set col vals choices)
       else Ok choices)
    [].

Definition numeric_fields : list string :=
  ["Gross Wt. (lbs)"; "Degree of saturation"; "CBR"].

(** ** Streamlit scripts: a trace of calls and how the run ends *)

Inductive event : Type :=
  | StWarning (msg : string)
  | StError (msg : string)
  | StSuccess (msg : string)
  | StWrite (msg : string)
  | StSubheader (msg : string)
  | StDataframe (out : DataFrame)
  | StExpander (label : string) (X : DataFrame)
  | CallPredict (X : DataFrame)
  | CallPredictProba (X : DataFrame).

(** [Stopped] is the end of the run by [st.stop()], whose exception is not
    an [Exception] and so passes every [except Exception]. *)
Inductive outcome (A : Type) : Type :=
  | Done (a : A)
  | Raised (e : exn)
  | Stopped.
Arguments Done {A} a.
Arguments Raised {A} e.
Arguments Stopped {A}.

Record script (A : Type) : Type := Script {
  trace : list event;
  result : outcome A
}.
Arguments Script {A} trace result.
Arguments trace {A} s.
Arguments result {A} s.

Global Instance script_ret : MRet script := λ A a, Script [] (Done a).
Global Instance script_bind : MBind script := λ A B k m,
  match result m with
  | Done a => Script (trace m ++ trace (k a)) (result (k a))
  | Raised e => Script (trace m) (Raised e)
  | Stopped => Script (trace m) Stopped
  end.

Definition lift {A} (m : res A) : script A :=
  match m with
  | Ok a => Script [] (Done a)
  | Err e => Script [] (Raised e)
  end.

Definition emit (ev : event) : script unit := Script [ev] (Done tt).

Definition st_stop {A} : script A := Script [] Stopped.

(** [try: m except Exception as e: handler e] in a script *)
Definition try_script {A} (m : script A) (handler : exn → script A)
  : script A :=
  match result m with
  | Raised e => Script (trace m ++ trace (handler e)) (result (handler e))
  | _ => m
  end.

Definition call_predict (pipeline : Pipeline) (X : DataFrame)
  : script (list Z) :=
  emit (CallPredict X);; lift (predict pipeline X).

(** The attribute [pipeline.predict_proba]: a pipeline has it when its
    final estimator, the last step, has the method; the lookup raises
    AttributeError otherwise. *)
Definition getattr_predict_proba (pipeline : Pipeline)
  : res (DataFrame → res (list (list spec_float))) :=
  let missing :=
    AttributeError "This 'Pipeline' has no attribute 'predict_proba'" in
  match last (named_steps pipeline) with
  | Some (_, estimator) =>
      if has_predict_proba estimator then Ok (predict_proba pipeline)
      else Err missing
  | None => Err missing
  end.

(** [pipeline.predict_proba(X)]: the attribute is looked up, then
    called. *)
Definition call_predict_proba (pipeline : Pipeline) (X : DataFrame)
  : script (list (list spec_float)) :=
  method ← lift (getattr_predict_proba pipeline);
  emit (CallPredictProba X);;
  lift (method X).

Definition is_inference (ev : event) : Prop :=
  match ev with
  | CallPredict _ | CallPredictProba _ => True
  | _ => False
  end.

(** A module the script may have imported. *)
Record NumpyModule : Type := {
  np_where : list bool → string → string → list string
}.

Definition numpy : NumpyModule :=
  {| np_where := λ cond x y, (λ b : bool, if b then x else y) <$> cond |}.

(** ** [app.py]: the multi-aircraft batch flow *)

Module Batch.

(** The names the imports of [app.py] bind: [io], [joblib],
    [pandas as pd], [streamlit as st]. *)
Definition imported : list string := ["io"; "joblib"; "pd"; "st"].

(** Reading the global [name], meant for the module [m]: NameError when
    nothing binds it. *)
Definition load_global {A} (name : string) (m : A) : res A :=
  if decide (name ∈ imported) then Ok m else Err (NameError name).

(** [coerce_numeric(d)] *)
Definition coerce_numeric (rt : PyRuntime) (d : dict value)
  : res (dict value) :=
  let dd := dict_copy d in
  let dd :=
    match dict_get dd "Degree of saturation" with
    | Some (PyStr s) =>
        dict_set "Degree of saturation"
          (PyStr (PyStr.strip (PyStr.replace_char "%" "" s))) dd
    | _ => dd
    end in
  for_in numeric_fields
    (λ dd k,
       match dict_get dd k with
       | Some v =>
           if in_none_or_empty v then Ok dd
           else try_except (f ← py_float rt v; Ok (dict_set k f dd))
                           (λ _, Ok dd)
       | None => Ok dd
       end)
    dd.

(** The rows of a submission: one per selected aircraft, or the base row
    alone when the model has no "Aircraft Name" column. *)
Definition expand_rows (cat_cols : list string) (row_base : dict value)
    (aircraft_selected : list string) : script (list (dict value)) :=
  let rows := [] in
  if decide ("Aircraft Name" ∈ cat_cols) then
    match aircraft_selected with
    | [] => emit (StWarning "Please select at least one aircraft.");;
            st_stop
    | _ => mret tt
    end;;
    mret (fold_left
            (λ rows ac,
               let d := dict_copy row_base in
               let d := dict_set "Aircraft Name" (PyStr ac) d in
               rows ++ [d])
            aircraft_selected rows)
  else mret (rows ++ [dict_copy row_base]).

(** Coercion of every row, then the frame in training-time order. *)
Definition reconcile (rt : PyRuntime) (num_cols cat_cols : list string)
    (rows : list (dict value)) : res DataFrame :=
  rows ← mapM (coerce_numeric rt) rows;
  let inf_cols := num_cols ++ cat_cols in
  Ok (reindex inf_cols (DataFrame_of_records rows)).

(** [probs]: the second column of [predict_proba(X)] when the model has
    the method. *)
Definition positive_probs (pipeline : Pipeline) (X : DataFrame)
  : script (option (list spec_float)) :=
  model ← lift (dict_getitem (named_steps pipeline) "model");
  if has_predict_proba model then
    P ← call_predict_proba pipeline X;
    col ← lift (mapM (λ r : list spec_float,
                        match r !! 1%nat with
                        | Some p => Ok p
                        | None => Err (IndexError "index 1 is out of bounds")
                        end) P);
    mret (Some col)
  else mret None.

Definition insert_if_present (X : DataFrame) (c : string) (loc : nat)
    (name : string) (f : list value → list value) (out : DataFrame)
  : res DataFrame :=
  if decide (c ∈ columns X) then
    df_insert loc name (f <$> df_select X c) out
  else Ok out.

(** The results table. *)
Definition results_table (rt : PyRuntime) (X : DataFrame)
    (labels : list string) (probs : option (list spec_float))
  : res DataFrame :=
  let out := {| index_len := length labels;
                frame := [("Prediction", PyStr <$> labels)] |} in
  out ← insert_if_present X "Aircraft Name" 0 "Aircraft"
          (fmap (λ v, PyStr (py_str rt (if isna v then PyStr "" else v))))
          out;
  out ← insert_if_present X "Gross Wt. (lbs)" 1 "Gross Wt. (lbs)" id out;
  out ← insert_if_present X "Degree of saturation" 2
          "Degree of saturation" id out;
  out ← insert_if_present X "Subgrade soil type" 3 "Soil" id out;
  out ← insert_if_present X "Subgrade Categories (FAA)" 4 "FAA Category"
          id out;
  match probs with
  | Some ps =>
      df_setitem "P(Overloaded)" ((λ p, PyFloat (round3 rt p)) <$> ps) out
  | None => Ok out
  end.

(** The body of [if st.button("Predict"):]. *)
Definition predict_handler (rt : PyRuntime) (pipeline : Pipeline)
    (num_cols cat_cols : list string) (row_base : dict value)
    (aircraft_selected : list string) : script unit :=
  try_script
    (rows ← expand_rows cat_cols row_base aircraft_selected;
     X ← lift (reconcile rt num_cols cat_cols rows);
     pred ← call_predict pipeline X;
     np ← lift (load_global "np" numpy);
     let labels :=
       np_where np ((λ y, bool_decide (y = 1)) <$> pred)
                "Overloaded" "Safe" in
     probs ← positive_probs pipeline X;
     out ← lift (results_table rt X labels probs);
     emit (StSubheader "Results");;
     emit (StDataframe out);;
     emit (StExpander "Show input rows (debug)" X))
    (λ e, emit (StError ("Prediction failed: " +:+ exn_str e))).

End Batch.

(** ** [app.py.py]: the single-row flow *)

Module Single.

(** [build_input_df(pipeline, row_dict)] *)
Definition build_input_df (rt : PyRuntime) (pipeline : Pipeline)
    (row_dict : dict value) : res DataFrame :=
  '(num_cols, cat_cols) ← get_expected_input_columns pipeline;
  let d := dict_copy row_dict in
  let d :=
    match dict_get d "Degree of saturation" with
    | Some (PyStr s) =>
        dict_set "Degree of saturation"
          (PyStr (PyStr.strip (PyStr.replace_char "%" "" s))) d
    | _ => d
    end in
  d ← for_in ["Gross Wt. (lbs)"; "Degree of saturation"; "CBR"]
        (λ d k,
           match dict_get d k with
           | Some v =>
               if in_none_or_empty v then Ok d
               else try_except (f ← py_float rt v; Ok (dict_set k f d))
                               (λ _, Ok d)
           | None => Ok d
           end)
        d;
  let X := DataFrame_of_records [d] in
  let X := reindex (num_cols ++ cat_cols) X in
  Ok X.

(** [pipeline.predict(X)[0]] *)
Definition first_label (pred : list Z) : res Z :=
  match pred with
  | y :: _ => Ok y
  | [] => Err (IndexError "index 0 is out of bounds")
  end.

(** [pipeline.predict_proba(X)[0, 1]] *)
Definition first_positive_prob (P : list (list spec_float))
  : res spec_float :=
  match P with
  | r :: _ =>
      match r !! 1%nat with
      | Some p => Ok p
      | None => Err (IndexError "index 1 is out of bounds")
      end
  | [] => Err (IndexError "index 0 is out of bounds")
  end.

Definition render_label (pred : Z) : string :=
  if decide (pred = 1) then "Overload" else "Safe".

(** The body of [if st.button("Predict"):]. *)
Definition predict_handler (rt : PyRuntime) (pipeline : Pipeline)
    (row : dict value) : script unit :=
  try_script
    (X ← lift (build_input_df rt pipeline row);
     P ← call_predict pipeline X;
     pred ← lift (first_label P);
     let label := render_label pred in
     emit (StSuccess ("Prediction: **" +:+ label +:+ "**"));;
     try_script
       (P ← call_predict_proba pipeline X;
        prob ← lift (first_positive_prob P);
        emit (StWrite ("Probability of Overload: **" +:+ format3 rt prob
                       +:+ "**")))
       (λ _, mret tt);;
     emit (StExpander "Show input row (debug)" X))
    (λ e, emit (StError ("Prediction failed: " +:+ exn_str e))).

End Single.

(** ** What the coercion leaves in a field

    A reading of the coercion field by field, against which the code is
    proved below. *)

(** The saturation field before the conversion: a string loses its percent
    signs and the whitespace around it. *)
Definition cleaned (k : string) (v : value) : value :=
  if decide (k = "Degree of saturation") then
    match v with
    | PyStr s => PyStr (PyStr.strip (PyStr.replace_char "%" "" s))
    | _ => v
    end
  else v.

(** [None] and the empty string stay; anything else becomes its [float]
    when it has one. *)
Definition converted (rt : PyRuntime) (v : value) : value :=
  if in_none_or_empty v then v
  else match py_float rt v with
       | Ok f => f
       | Err _ => v
       end.

Definition coerced (rt : PyRuntime) (k : string) (v : value) : value :=
  if decide (k ∈ numeric_fields) then converted rt (cleaned k v) else v.

(** One turn of the loop over the known-numeric fields. *)
Definition coerce_step (rt : PyRuntime) (dd : dict value) (k : string)
  : res (dict value) :=
  match dict_get dd k with
  | Some v =>
      if in_none_or_empty v then Ok dd
      else try_except (f ← py_float rt v; Ok (dict_set k f dd))
                      (λ _, Ok dd)
  | None => Ok dd
  end.

(** The percent-sign step before the loop. *)
Definition clean_saturation (d : dict value) : dict value :=
  match dict_get d "Degree of saturation" with
  | Some (PyStr s) =>
      dict_set "Degree of saturation"
        (PyStr (PyStr.strip (PyStr.replace_char "%" "" s))) d
  | _ => d
  end.

(** A runtime for the closed examples; they use printable ASCII strings
    and no float formatting, so that nothing in them depends on its
    choices. *)
Definition example_runtime : PyRuntime :=
  {| float_of_other := λ _, None;
     repr_float := λ _, "nan";
     round3 := λ f, f;
     format3 := λ _, "nan";
     strings_of_frame := λ _, Err (ValueError "Data must be 1-dimensional") |}.

(** 85.0 *)
Definition float_85 : spec_float := S754_finite false 5981343255101440 (-46).

(** The row the coercion returns; it always returns one
    ([coerce_numeric_total]). *)
Definition coerced_row (rt : PyRuntime) (d : dict value) : dict value :=
  match Batch.coerce_numeric rt d with
  | Ok dd => dd
  | Err _ => d
  end.

(** The cell of row [i] in a column. *)
Definition cell (col : list value) (i : nat) : option value := col !! i.

(** The reading of the specification, at one row and one field: a value
    that has no [float] is still there, unchanged, after the coercion. *)
Definition original_value_kept (rt : PyRuntime) (d : dict value)
    (k : string) : Prop :=
  ∀ v, dict_get d k = Some v → raises (py_float rt v) →
       ∃ dd, Batch.coerce_numeric rt d = Ok dd ∧ dict_get dd k = Some v.

(** Inputs of the closed examples. *)
Definition example_num_cols : list string :=
  ["Gross Wt. (lbs)"; "Degree of saturation"; "CBR"].

Definition example_cat_cols : list string :=
  ["Aircraft Name"; "Subgrade soil type"].

Definition example_pipeline : Pipeline :=
  {| named_steps :=
       [("prep",
         {| transformers_ :=
              Some [("num", OpaqueTransformer "StandardScaler",
                     example_num_cols);
                    ("cat", OpaqueTransformer "OneHotEncoder",
                     example_cat_cols)];
            has_predict_proba := false |});
        ("model", {| transformers_ := None; has_predict_proba := true |})];
     predict := λ _, Ok [1; 0; 1];
     predict_proba := λ _, Ok [] |}.

Definition example_row : dict value :=
  [("Subgrade soil type", PyStr "CL");
   ("Degree of saturation", PyStr "85%");
   ("Runway", PyStr "09L");
   ("Gross Wt. (lbs)", PyStr "n/a")].

Definition example_selection : list string := ["A320"; "B737"; "B747"].

(** The failure the batch handler reports once [predict] has returned. *)
Definition np_not_defined : string :=
  "Prediction failed: name 'np' is not defined".

(** The labels of a sheet after trimming, and how many columns carry one. *)
Definition sheet_labels (rt : PyRuntime) (df : list (value * list value))
  : list string :=
  (relabel rt df).*1.

Definition label_count (rt : PyRuntime) (df : list (value * list value))
    (col : string) : nat :=
  length (filter (λ p, p.1 = col) (relabel rt df)).

Definition example_num_only_pipeline : Pipeline :=
  {| named_steps :=
       [("prep",
         {| transformers_ :=
              Some [("num", OpaqueTransformer "StandardScaler",
                     example_num_cols)];
            has_predict_proba := false |})];
     predict := λ _, Ok [];
     predict_proba := λ _, Ok [] |}.

Definition example_sheet : list (value * list value) :=
  [(PyStr " Aircraft Name ",
    [PyStr "B737 "; PyNone; PyStr "A320"; PyStr ""; PyStr "B737"; PyInt 12]);
   (PyStr "Runway", [PyStr "09L"; PyStr "27R"; NaN; NaN; NaN; NaN])].

Definition example_workbook : Workbook :=
  {| read_data_sheet := Err (ValueError "Worksheet named 'data' not found");
     read_first_sheet := Ok example_sheet |}.

(** ** The rest of the two scripts: uploads and input forms *)

(** [s.split(sep)] for a one-character separator. *)
Fixpoint str_split (sep : ascii) (s : string) : list string :=
  match s with
  | EmptyString => [EmptyString]
  | String a s' =>
      if decide (a = sep) then EmptyString :: str_split sep s'
      else match str_split sep s' with
           | piece :: pieces => String a piece :: pieces
           | [] => [String a EmptyString]
           end
  end.

(** [sep.join(pieces)] *)
Fixpoint str_join (sep : string) (pieces : list string) : string :=
  match pieces with
  | [] => EmptyString
  | [piece] => piece
  | piece :: pieces' => piece +:+ sep +:+ str_join sep pieces'
  end.

(** [c in s] for a one-character [c]. *)
Fixpoint str_contains (c : ascii) (s : string) : bool :=
  match s with
  | EmptyString => false
  | String a s' => bool_decide (a = c) || str_contains c s'
  end.

(** What the user has entered in the widgets of a run, by widget label
    (and options, for the choosers). The drawing of the widgets is not in
    the trace. *)
Record Widgets : Type := {
  number_input : string → spec_float;
  selectbox : string → list string → string;
  text_input : string → string;
  (** label, options, default *)
  multiselect : string → list string → list string → list string;
  text_area : string → string
}.

(** [if P: d[k] = v] *)
Definition set_if (P : Prop) `{Decision P} {V} (k : string) (v : V)
    (d : dict V) : dict V :=
  if decide P then dict_set k v d else d.

(** The block under the Excel uploader: [choices] stays empty without an
    upload and when the extraction raises, which a warning reports. *)
Definition load_choices (rt : PyRuntime) (up_excel : option Workbook)
  : script (dict (list string)) :=
  let choices := [] in
  match up_excel with
  | Some wb =>
      try_script
        (choices ← lift (extract_choices_from_excel rt wb);
         emit (StSuccess "Dropdown choices loaded from Excel.");;
         mret choices)
        (λ e, emit (StWarning ("Could not read Excel: " +:+ exn_str e));;
              mret choices)
  | None => mret choices
  end.

(** The numeric steppers, in both scripts. *)
Definition numeric_inputs (w : Widgets) (num_cols : list string)
    (row : dict value) : dict value :=
  let row :=
    set_if ("Gross Wt. (lbs)" ∈ num_cols) "Gross Wt. (lbs)"
      (PyFloat (number_input w "Gross Wt. (lbs)")) row in
  let row :=
    set_if ("Degree of saturation" ∈ num_cols) "Degree of saturation"
      (PyFloat (number_input w "Degree of saturation (%)")) row in
  set_if ("CBR" ∈ num_cols) "CBR" (PyFloat (number_input w "CBR")) row.

(** A dropdown over [[""] + choices[col]] when the Excel gave choices for
    [col], a free text otherwise. *)
Definition dropdown_or_text (w : Widgets) (choices : dict (list string))
    (col : string) : string :=
  match dict_get choices col with
  | Some opts => selectbox w col ("" :: opts)
  | None => text_input w col
  end.

Module BatchInputs.

(** [row_base] at the Predict button of [app.py]. *)
Definition row_base (w : Widgets) (num_cols cat_cols : list string)
    (choices : dict (list string)) : dict value :=
  let row_base := numeric_inputs w num_cols [] in
  let row_base :=
    set_if ("Subgrade soil type" ∈ cat_cols) "Subgrade soil type"
      (PyStr (dropdown_or_text w choices "Subgrade soil type")) row_base in
  let row_base :=
    set_if ("Subgrade Categories (FAA)" ∈ cat_cols)
      "Subgrade Categories (FAA)"
      (PyStr (dropdown_or_text w choices "Subgrade Categories (FAA)"))
      row_base in
  fold_left
    (λ row_base c,
       if decide (c ∈ target_columns) then row_base
       else if decide (c ∈ dict_keys row_base) then row_base
       else dict_set c (PyStr (text_input w c)) row_base)
    cat_cols row_base.

(** [[a.strip() for a in free.split(",") if a.strip()]] *)
Definition parse_names (free : string) : list string :=
  PyStr.strip <$> filter (λ a, PyStr.strip a ≠ "") (str_split "," free).

(** [aircraft_selected] at the Predict button of [app.py]. *)
Definition aircraft_selected (w : Widgets) (cat_cols : list string)
    (choices : dict (list string)) : list string :=
  if decide ("Aircraft Name" ∈ cat_cols) then
    match dict_get choices "Aircraft Name" with
    | Some (opt :: opts) =>
        multiselect w "Aircraft Name(s)" (opt :: opts) (take 1 (opt :: opts))
    | _ => parse_names (text_area w "Aircraft Name(s) (comma-separated)")
    end
  else [].

(** A press of Predict on the form of [app.py]. *)
Definition on_predict (rt : PyRuntime) (pipeline : Pipeline) (w : Widgets)
    (num_cols cat_cols : list string) (choices : dict (list string))
  : script unit :=
  Batch.predict_handler rt pipeline num_cols cat_cols
    (row_base w num_cols cat_cols choices)
    (aircraft_selected w cat_cols choices).

End BatchInputs.

Module SingleInputs.

(** [row] at the Predict button of [app.py.py]. *)
Definition row (w : Widgets) (num_cols cat_cols : list string)
    (choices : dict (list string)) : dict value :=
  let row := numeric_inputs w num_cols [] in
  let row :=
    fold_left
      (λ row col,
         set_if (col ∈ cat_cols) col
           (PyStr (dropdown_or_text w choices col)) row)
      target_columns row in
  fold_left
    (λ row c,
       if decide (c ∈ dict_keys row) then row
       else dict_set c (PyStr (text_input w c)) row)
    cat_cols row.

(** A press of Predict on the form of [app.py.py]. *)
Definition on_predict (rt : PyRuntime) (pipeline : Pipeline) (w : Widgets)
    (num_cols cat_cols : list string) (choices : dict (list string))
  : script unit :=
  Single.predict_handler rt pipeline (row w num_cols cat_cols choices).

End SingleInputs.

(** The label of the stepper that fills a known-numeric field. *)
Definition stepper_label (k : string) : string :=
  if decide (k = "Degree of saturation") then "Degree of saturation (%)"
  else k.

Definition example_widgets : Widgets :=
  {| number_input := λ _, float_85;
     selectbox := λ _ opts, default "" (head opts);
     text_input := λ label, if decide (label = "Runway") then "09L" else "";
     multiselect := λ _ _ dflt, dflt;
     text_area := λ _, " A320 ,, B737,  " |}.

(** The rows of the example selection over the example form and over the
    example row. *)
Definition example_form_rows : list (dict value) :=
  (λ ac, dict_set "Aircraft Name" (PyStr ac)
           (BatchInputs.row_base example_widgets example_num_cols
              example_cat_cols []))
    <$> example_selection.

Definition example_rows : list (dict value) :=
  (λ ac, dict_set "Aircraft Name" (PyStr ac) example_row)
    <$> example_selection.

(** No whitespace character starts [s]: [lstrip] has nothing to remove.
    [no_space_end] reads the same on the reversed bytes. *)
Definition no_space_start (s : string) : bool :=
  match s with
  | String a s1 =>
      negb (PyStr.space1 a)
      && match s1 with
         | String b s2 =>
             negb (PyStr.space2 a b)
             && match s2 with
                | String c _ => negb (PyStr.space3 a b c)
                | EmptyString => true
                end
         | EmptyString => true
         end
  | EmptyString => true
  end.

Definition no_space_end (s : string) : bool :=
  match s with
  | String a s1 =>
      negb (PyStr.space1 a)
      && match s1 with
         | String b s2 =>
             negb (PyStr.space2 b a)
             && match s2 with
                | String c _ => negb (PyStr.space3 c b a)
                | EmptyString => true
                end
         | EmptyString => true
         end
  | EmptyString => true
  end.

(** ** The two flows side by side *)


(** * Properties *)

(** ** Dictionaries *)

Section dict_facts.
Context {V : Type}.
Implicit Types (d : dict V) (k : string) (v : V).

Lemma dict_get_set_eq d k v : dict_get (dict_set k v d) k = Some v.
Proof.
  induction d as [|[k' v'] d IH]; simpl.
  - by rewrite decide_True.
  - destruct (decide (k' = k)) as [->|Hne]; simpl.
    + by rewrite decide_True.
    + by rewrite decide_False.
Qed.

Lemma dict_get_set_ne d k k' v :
  k ≠ k' → dict_get (dict_set k v d) k' = dict_get d k'.
Proof.
  intros Hne. induction d as [|[k0 v0] d IH]; simpl.
  - by rewrite decide_False.
  - destruct (decide (k0 = k)) as [->|Hk0]; simpl.
    + by rewrite !decide_False.
    + by rewrite IH.
Qed.

Lemma dict_get_set d k k' v :
  dict_get (dict_set k v d) k' =
    if decide (k' = k) then Some v else dict_get d k'.
Proof.
  destruct (decide (k' = k)) as [->|Hne].
  - apply dict_get_set_eq.
  - by apply dict_get_set_ne.
Qed.

Lemma dict_keys_set_present d k v :
  is_Some (dict_get d k) → dict_keys (dict_set k v d) = dict_keys d.
Proof.
  unfold dict_keys. induction d as [|[k' v'] d IH]; simpl.
  - by intros [? ?].
  - destruct (decide (k' = k)) as [->|Hne]; simpl; [done|].
    intros Hs. f_equal. by apply IH.
Qed.

Lemma dict_get_None d k : dict_get d k = None ↔ k ∉ dict_keys d.
Proof.
  unfold dict_keys. induction d as [|[k' v'] d IH]; simpl.
  - split; [intros _; apply not_elem_of_nil | done].
  - rewrite not_elem_of_cons. destruct (decide (k' = k)) as [->|Hne].
    + split; [done | by intros [? _]].
    + rewrite IH. split; [by intros ?; split; [congruence|] | by intros [_ ?]].
Qed.

Lemma dict_get_Some_keys d k v : dict_get d k = Some v → k ∈ dict_keys d.
Proof.
  intros Hget. destruct (decide (k ∈ dict_keys d)) as [|Hn]; [done|].
  apply dict_get_None in Hn. congruence.
Qed.


Lemma dict_get_fmap_key (f : string → V) (l : list string) k :
  dict_get ((λ c, (c, f c)) <$> l) k =
    if decide (k ∈ l) then Some (f k) else None.
Proof.
  induction l as [|c l IH].
  - rewrite decide_False; [done | apply not_elem_of_nil].
  - rewrite fmap_cons. cbn [dict_get].
    destruct (decide (c = k)) as [->|Hne].
    + rewrite decide_True; [done | left].
    + rewrite IH. destruct (decide (k ∈ l)) as [Hin|Hnin].
      * rewrite decide_True; [done | by right].
      * rewrite decide_False; [done|]. rewrite not_elem_of_cons.
        split; [congruence|done].
Qed.
End dict_facts.

(** ** Results *)

Lemma for_in_invariant {S A} (P : S → Prop) (l : list A)
    (body : S → A → res S) (s s' : S) :
  for_in l body s = Ok s' →
  P s →
  (∀ s0 x s1, x ∈ l → P s0 → body s0 x = Ok s1 → P s1) →
  P s'.
Proof.
  revert s. induction l as [|x l IH]; simpl; intros s Hloop Hs Hstep.
  - by injection Hloop as <-.
  - destruct (body s x) as [s1|e] eqn:Hb; simpl in Hloop; [|done].
    apply (IH s1 Hloop).
    + eapply Hstep; [left | done | done].
    + intros s0 y s2 Hy. apply Hstep. by right.
Qed.

Lemma mapM_res_Ok {A B} (f : A → res B) (g : A → B) (l : list A) :
  (∀ x, x ∈ l → f x = Ok (g x)) → mapM f l = Ok (g <$> l).
Proof.
  induction l as [|x l IH]; intros Hf; simpl; [done|].
  rewrite (Hf x); [|left]. simpl.
  rewrite IH; [done|]. intros y Hy. apply Hf. by right.
Qed.

(** ** The numeric coercion *)

Section coercion.
Variable rt : PyRuntime.
Implicit Types (d dd : dict value) (k : string) (v : value).

Lemma coerce_step_spec dd k :
  ∃ dd', coerce_step rt dd k = Ok dd'
    ∧ dict_keys dd' = dict_keys dd
    ∧ ∀ k', dict_get dd' k' =
        if decide (k' = k) then converted rt <$> dict_get dd k
        else dict_get dd k'.
Proof.
  unfold coerce_step.
  assert (∀ dd', dict_get dd k = None ∨
                 (∃ v, dict_get dd k = Some v ∧ converted rt v = v) →
                 dd' = dd →
                 ∀ k', dict_get dd' k' =
                   if decide (k' = k) then converted rt <$> dict_get dd k
                   else dict_get dd k') as Hsame.
  { intros dd' Hk -> k'. case_decide; [subst k'|done].
    destruct Hk as [->|(v & -> & Hv)]; simpl; [done | by rewrite Hv]. }
  destruct (dict_get dd k) as [v|] eqn:Hget.
  - destruct (in_none_or_empty v) eqn:Hne.
    + exists dd. split_and!; [done|done|]. apply Hsame; [|done].
      right. exists v. split; [done|]. unfold converted. by rewrite Hne.
    + destruct (py_float rt v) as [f|e] eqn:Hf; simpl.
      * exists (dict_set k f dd). split_and!; [done| |].
        -- apply dict_keys_set_present. by rewrite Hget.
        -- intros k'. rewrite dict_get_set. case_decide; [|done].
           simpl. unfold converted. by rewrite Hne, Hf.
      * exists dd. split_and!; [done|done|]. apply Hsame; [|done].
        right. exists v. split; [done|]. unfold converted.
        by rewrite Hne, Hf.
  - exists dd. split_and!; [done|done|]. apply Hsame; [by left|done].
Qed.

Lemma clean_saturation_spec d :
  dict_keys (clean_saturation d) = dict_keys d
  ∧ ∀ k, dict_get (clean_saturation d) k = cleaned k <$> dict_get d k.
Proof.
  unfold clean_saturation, cleaned.
  destruct (dict_get d "Degree of saturation") as [v|] eqn:Hget.
  - assert (∀ k, dict_get d k
              = (λ v, if decide (k = "Degree of saturation")
                      then v else v) <$> dict_get d k) as Hid.
    { intros k. destruct (dict_get d k); simpl; [|done]. by case_decide. }
    destruct v as [| | | |s];
      try (split; [done|]; intros k; destruct (decide (k = _)) as [->|];
           [by rewrite Hget | by destruct (dict_get d k)]).
    split.
    + apply dict_keys_set_present. by rewrite Hget.
    + intros k. rewrite dict_get_set.
      destruct (decide (k = _)) as [->|]; [by rewrite Hget|].
      by destruct (dict_get d k).
  - split; [done|]. intros k.
    destruct (decide (k = _)) as [->|]; [by rewrite Hget|].
    by destruct (dict_get d k).
Qed.

Lemma coerce_numeric_unfold d :
  Batch.coerce_numeric rt d =
    for_in numeric_fields (coerce_step rt) (clean_saturation d).
Proof. reflexivity. Qed.

(** The coercion returns, keeps the keys in their order, and leaves in
    each field what [coerced] says. *)
Lemma coerce_numeric_spec d :
  ∃ dd, Batch.coerce_numeric rt d = Ok dd
    ∧ dict_keys dd = dict_keys d
    ∧ ∀ k, dict_get dd k = coerced rt k <$> dict_get d k.
Proof.
  rewrite coerce_numeric_unfold.
  destruct (clean_saturation_spec d) as [Hk0 Hg0].
  unfold numeric_fields; cbn [for_in].
  destruct (coerce_step_spec (clean_saturation d) "Gross Wt. (lbs)")
    as (d1 & Hd1 & Hk1 & Hg1).
  destruct (coerce_step_spec d1 "Degree of saturation")
    as (d2 & Hd2 & Hk2 & Hg2).
  destruct (coerce_step_spec d2 "CBR") as (d3 & Hd3 & Hk3 & Hg3).
  rewrite Hd1; cbn [mbind res_bind]. rewrite Hd2; cbn [mbind res_bind].
  rewrite Hd3; cbn [mbind res_bind].
  exists d3. split_and!; [done|congruence|].
  intros k. rewrite Hg3. unfold coerced, numeric_fields.
  destruct (decide (k = "CBR")) as [->|Hc].
  { rewrite Hg2; simpl. rewrite Hg1; simpl. rewrite Hg0; simpl.
    by destruct (dict_get d "CBR"). }
  rewrite Hg2. destruct (decide (k = "Degree of saturation")) as [->|Hs].
  { rewrite Hg1; simpl. rewrite Hg0; simpl. by destruct (dict_get d _). }
  rewrite Hg1. destruct (decide (k = "Gross Wt. (lbs)")) as [->|Hg].
  { rewrite Hg0; simpl. by destruct (dict_get d _). }
  rewrite Hg0. destruct (dict_get d k) as [v|]; simpl; [|done].
  rewrite decide_False.
  - unfold cleaned. by rewrite decide_False.
  - rewrite !elem_of_cons, elem_of_nil. intros [?|[?|[?|[]]]]; congruence.
Qed.
End coercion.

Lemma coerce_numeric_total rt d :
  Batch.coerce_numeric rt d = Ok (coerced_row rt d).
Proof.
  unfold coerced_row.
  by destruct (coerce_numeric_spec rt d) as (dd & -> & _).
Qed.

Lemma coerced_row_keys rt d : dict_keys (coerced_row rt d) = dict_keys d.
Proof.
  destruct (coerce_numeric_spec rt d) as (dd & Hdd & Hk & _).
  rewrite coerce_numeric_total in Hdd. by injection Hdd as ->.
Qed.

Lemma coerced_row_get rt d k :
  dict_get (coerced_row rt d) k = coerced rt k <$> dict_get d k.
Proof.
  destruct (coerce_numeric_spec rt d) as (dd & Hdd & _ & Hg).
  rewrite coerce_numeric_total in Hdd. injection Hdd as ->. apply Hg.
Qed.

(** [float_85] is the float of the integer 85 and of the literal 85.0. *)
Lemma float_85_exact :
  PyFloat.of_int 85 = Some float_85 ∧ PyFloat.of_ascii "85.0" = Some float_85.
Proof. split; by vm_compute. Qed.

(** ** Data frames *)

Lemma elem_of_unique {A} `{EqDecision A} (l : list A) x :
  x ∈ unique l ↔ x ∈ l.
Proof.
  induction l as [|y l IH]; simpl; [done|].
  rewrite !elem_of_cons, list_elem_of_filter, IH.
  destruct (decide (x = y)); tauto.
Qed.

Lemma NoDup_unique {A} `{EqDecision A} (l : list A) : NoDup (unique l).
Proof.
  induction l as [|y l IH]; simpl; constructor.
  - rewrite list_elem_of_filter. by intros [? _].
  - by apply NoDup_filter.
Qed.

Lemma record_column_absent rows c :
  c ∉ mjoin (dict_keys <$> rows) →
  record_column rows c = replicate (length rows) NaN.
Proof.
  unfold record_column. induction rows as [|r rows IH]; simpl; [done|].
  rewrite not_elem_of_app. intros [Hr Hrows].
  apply dict_get_None in Hr. rewrite Hr. simpl. f_equal. by apply IH.
Qed.

Lemma record_column_lookup rows c i r :
  rows !! i = Some r →
  cell (record_column rows c) i = Some (default NaN (dict_get r c)).
Proof.
  intros Hi. unfold cell, record_column. by rewrite list_lookup_fmap, Hi.
Qed.

(** Reindexing the frame of a list of records: each requested label with
    what the rows hold under it. *)
Lemma reindex_records cols rows :
  reindex cols (DataFrame_of_records rows) =
    {| index_len := length rows;
       frame := (λ c, (c, record_column rows c)) <$> cols |}.
Proof.
  unfold reindex, DataFrame_of_records; simpl. f_equal.
  apply list_fmap_ext; intros _ c _. f_equal.
  rewrite dict_get_fmap_key. case_decide as Hc; simpl; [done|].
  symmetry. apply record_column_absent.
  intros Hin. apply Hc. by apply elem_of_unique.
Qed.

Lemma columns_fmap_key (f : string → list value) cols n :
  columns {| index_len := n; frame := (λ c, (c, f c)) <$> cols |} = cols.
Proof.
  unfold columns; simpl. rewrite <- list_fmap_compose.
  induction cols as [|c cols IH]; simpl; [done|]. by f_equal.
Qed.

Lemma record_column_ext rows rows' c :
  Forall2 (λ r r', dict_get r c = dict_get r' c) rows rows' →
  record_column rows c = record_column rows' c.
Proof.
  unfold record_column. induction 1 as [|r r' rows rows' Hr _ IH].
  - done.
  - rewrite !fmap_cons. by rewrite Hr, IH.
Qed.

(** The reconciliation returns, with this frame. *)
Lemma reconcile_spec rt num_cols cat_cols rows :
  Batch.reconcile rt num_cols cat_cols rows =
    Ok {| index_len := length rows;
          frame := (λ c, (c, record_column (coerced_row rt <$> rows) c))
                     <$> num_cols ++ cat_cols |}.
Proof.
  unfold Batch.reconcile.
  rewrite (mapM_res_Ok _ (coerced_row rt)); simpl.
  - by rewrite reindex_records, length_fmap.
  - intros d _. apply coerce_numeric_total.
Qed.

Lemma frame_reconciled rt (cols : list string) rows c col :
  (c, col) ∈ (λ c, (c, record_column (coerced_row rt <$> rows) c)) <$> cols →
  c ∈ cols ∧ ∀ i r, rows !! i = Some r →
    cell col i = Some match dict_get r c with
                      | Some v => coerced rt c v
                      | None => NaN
                      end.
Proof.
  rewrite list_elem_of_fmap. intros (c' & [= -> ->] & Hc). split; [done|].
  intros i r Hi.
  rewrite (record_column_lookup _ _ _ (coerced_row rt r)).
  - rewrite coerced_row_get. by destruct (dict_get r c').
  - by rewrite list_lookup_fmap, Hi.
Qed.

(** Rows with the same fields, in whatever order, reconcile alike. *)
Lemma reconcile_ext rt num_cols cat_cols rows rows' :
  Forall2 (λ r r', ∀ k, dict_get r k = dict_get r' k) rows rows' →
  Batch.reconcile rt num_cols cat_cols rows =
    Batch.reconcile rt num_cols cat_cols rows'.
Proof.
  intros Hrows. rewrite !reconcile_spec.
  rewrite (Forall2_length _ _ _ Hrows). do 2 f_equal.
  apply list_fmap_ext; intros _ c _. f_equal.
  apply record_column_ext, Forall2_fmap.
  eapply Forall2_impl; [exact Hrows|]. intros r r' Hr; simpl.
  by rewrite !coerced_row_get, Hr.
Qed.

(** The single-row reconciliation is the batch one on that row alone. *)
Lemma build_input_df_reconcile rt pipeline num_cols cat_cols row :
  get_expected_input_columns pipeline = Ok (num_cols, cat_cols) →
  Single.build_input_df rt pipeline row =
    Batch.reconcile rt num_cols cat_cols [row].
Proof.
  intros Hcols. unfold Single.build_input_df. rewrite Hcols.
  cbn [mbind res_bind].
  change (for_in _ _ _) with (Batch.coerce_numeric rt row).
  unfold Batch.reconcile. cbn [mapM].
  by rewrite coerce_numeric_total.
Qed.

(** ** The claims on the reconciliation *)

(** C1. For every schema and every list of input rows, the table
    reconciled before inference has exactly the columns
    numeric ++ categorical, in that order: a row field outside the schema
    is no column, and a schema column the row lacks holds NaN in that row
    (a field present holds its coerced value). Rows with the same fields
    under another order of keys give the same table, and the single-row
    variant builds the same table for its one row. *)
Theorem reconciled_table_follows_schema rt num_cols cat_cols rows :
  ∃ X, Batch.reconcile rt num_cols cat_cols rows = Ok X
    ∧ columns X = num_cols ++ cat_cols
    ∧ index_len X = length rows
    ∧ (∀ k, k ∉ num_cols ++ cat_cols → k ∉ columns X)
    ∧ (∀ i r c col, rows !! i = Some r → (c, col) ∈ frame X →
         cell col i = Some match dict_get r c with
                           | Some v => coerced rt c v
                           | None => NaN
                           end)
    ∧ (∀ rows',
         Forall2 (λ r r', ∀ k, dict_get r k = dict_get r' k) rows rows' →
         Batch.reconcile rt num_cols cat_cols rows' = Ok X)
    ∧ (∀ pipeline row,
         get_expected_input_columns pipeline = Ok (num_cols, cat_cols) →
         rows = [row] → Single.build_input_df rt pipeline row = Ok X).
Proof.
  eexists. split; [apply reconcile_spec|].
  rewrite columns_fmap_key. split_and!; [done|done|done| | |].
  - intros i r c col Hi Hc. simpl in Hc.
    by apply (frame_reconciled rt (num_cols ++ cat_cols) rows c col).
  - intros rows' Hrows. rewrite <- (reconcile_ext _ _ _ _ _ Hrows).
    apply reconcile_spec.
  - intros pipeline row Hcols ->.
    rewrite (build_input_df_reconcile rt _ _ _ _ Hcols).
    apply reconcile_spec.
Qed.

Lemma reconciled_table_follows_schema_witness :
  ∃ X, Batch.reconcile example_runtime example_num_cols example_cat_cols
         [example_row] = Ok X
    ∧ columns X = example_num_cols ++ example_cat_cols
    ∧ ("Runway" ∉ columns X)
    ∧ (∀ col, ("CBR", col) ∈ frame X → cell col 0 = Some NaN)
    ∧ Batch.reconcile example_runtime example_num_cols example_cat_cols
        [reverse example_row] = Ok X
    ∧ Single.build_input_df example_runtime example_pipeline example_row
        = Ok X.
Proof.
  destruct (reconciled_table_follows_schema example_runtime
              example_num_cols example_cat_cols [example_row])
    as (X & HX & Hcols & _ & Hdrop & Hcell & Horder & Hsingle).
  exists X. split_and!; [done|done| | | |].
  - apply Hdrop. apply (bool_decide_unpack _). by vm_compute.
  - intros col Hcol. apply (Hcell 0%nat example_row "CBR" col eq_refl Hcol).
  - apply Horder. repeat constructor. intros k. simpl.
    repeat case_decide; congruence.
  - apply Hsingle; reflexivity.
Defined.

(** C8. When the numeric columns include "Degree of saturation" and a row
    gives "85%" for it, the reconciled table holds the float 85.0 in that
    column for that row, in the batch flow and in the single-row flow. *)
Theorem saturation_percent_coerced rt num_cols cat_cols rows i r :
  "Degree of saturation" ∈ num_cols →
  rows !! i = Some r →
  dict_get r "Degree of saturation" = Some (PyStr "85%") →
  ∃ X, Batch.reconcile rt num_cols cat_cols rows = Ok X
    ∧ "Degree of saturation" ∈ columns X
    ∧ (∀ col, ("Degree of saturation", col) ∈ frame X →
         cell col i = Some (PyFloat float_85))
    ∧ (∀ pipeline,
         get_expected_input_columns pipeline = Ok (num_cols, cat_cols) →
         rows = [r] → Single.build_input_df rt pipeline r = Ok X).
Proof.
  intros Hnum Hi Hsat.
  destruct (reconciled_table_follows_schema rt num_cols cat_cols rows)
    as (X & HX & Hcols & _ & _ & Hcell & Hsingle).
  exists X. split_and!; [done| | |].
  - rewrite Hcols. apply elem_of_app. by left.
  - intros col Hcol. rewrite (Hcell i r _ col Hi Hcol), Hsat. by vm_compute.
  - intros pipeline Hp ->. by apply Hsingle.
Qed.

Lemma saturation_percent_coerced_witness :
  ∃ X, Batch.reconcile example_runtime example_num_cols example_cat_cols
         [example_row] = Ok X
    ∧ (∀ col, ("Degree of saturation", col) ∈ frame X →
         cell col 0 = Some (PyFloat float_85))
    ∧ Single.build_input_df example_runtime example_pipeline example_row
        = Ok X.
Proof.
  destruct (saturation_percent_coerced example_runtime example_num_cols
              example_cat_cols [example_row] 0%nat example_row)
    as (X & HX & _ & Hcell & Hsingle).
  - apply (bool_decide_unpack _). by vm_compute.
  - reflexivity.
  - reflexivity.
  - exists X. split_and!; [done|done|]. apply Hsingle; reflexivity.
Defined.


(** ** The claims on the numeric coercion *)

(** C10. On every row the coercion returns (it never raises), with the
    same keys in the same order, and every key other than
    "Gross Wt. (lbs)", "Degree of saturation" and "CBR" keeps its value. *)
Theorem coercion_total_keeps_other_fields rt d :
  ∃ dd, Batch.coerce_numeric rt d = Ok dd
    ∧ dict_keys dd = dict_keys d
    ∧ ∀ k, k ∉ numeric_fields → dict_get dd k = dict_get d k.
Proof.
  destruct (coerce_numeric_spec rt d) as (dd & Hdd & Hkeys & Hget).
  exists dd. split_and!; [done|done|].
  intros k Hk. rewrite Hget. destruct (dict_get d k) as [v|]; simpl; [|done].
  unfold coerced. by rewrite decide_False.
Qed.

Lemma coercion_total_keeps_other_fields_witness :
  ∃ dd, Batch.coerce_numeric example_runtime example_row = Ok dd
    ∧ dict_keys dd = dict_keys example_row
    ∧ dict_get dd "Runway" = Some (PyStr "09L").
Proof.
  destruct (coercion_total_keeps_other_fields example_runtime example_row)
    as (dd & Hdd & Hkeys & Hget).
  exists dd. split_and!; [done|done|].
  rewrite Hget; [reflexivity|].
  apply (bool_decide_unpack _). by vm_compute.
Defined.

(** C4 (as the code has it). For every row and every known-numeric field
    whose value, once a string in the saturation field has lost its
    percent signs and the whitespace around it, has no float, the coercion
    returns without an error and leaves that value in the field: the
    original value for "Gross Wt. (lbs)" and "CBR" and for a saturation
    value that is no string, the stripped string for a saturation
    string. *)
Theorem coercion_failure_keeps_cleaned_value rt d k v :
  k ∈ numeric_fields →
  dict_get d k = Some v →
  raises (py_float rt (cleaned k v)) →
  ∃ dd, Batch.coerce_numeric rt d = Ok dd
    ∧ dict_get dd k = Some (cleaned k v)
    ∧ (k ≠ "Degree of saturation" → dict_get dd k = Some v)
    ∧ ((∀ s, v ≠ PyStr s) → dict_get dd k = Some v).
Proof.
  intros Hk Hget Hraise.
  destruct (coerce_numeric_spec rt d) as (dd & Hdd & _ & Hspec).
  assert (dict_get dd k = Some (cleaned k v)) as Hkept.
  { rewrite Hspec, Hget. simpl. unfold coerced. rewrite decide_True by done.
    unfold converted. destruct (in_none_or_empty _); [done|].
    by destruct (py_float rt (cleaned k v)). }
  exists dd. split_and!; [done|done| |].
  - intros Hne. rewrite Hkept. unfold cleaned. by rewrite decide_False.
  - intros Hstr. rewrite Hkept. unfold cleaned. case_decide; [|done].
    destruct v; try done. by destruct (Hstr s).
Qed.

Lemma coercion_failure_keeps_cleaned_value_witness :
  ∃ dd, Batch.coerce_numeric example_runtime example_row = Ok dd
    ∧ dict_get dd "Gross Wt. (lbs)" = Some (PyStr "n/a").
Proof.
  destruct (coercion_failure_keeps_cleaned_value example_runtime example_row
              "Gross Wt. (lbs)" (PyStr "n/a"))
    as (dd & Hdd & _ & Hget & _).
  - apply (bool_decide_unpack _). by vm_compute.
  - reflexivity.
  - by vm_compute.
  - exists dd. split; [done|]. by apply Hget.
Defined.

(** C4 as stated fails: the saturation value "abc%" has no float, and the
    coercion leaves "abc" in the field, not the original string, whatever
    the runtime. *)
Lemma saturation_original_not_kept :
  ¬ ∃ rt, original_value_kept rt
            [("Degree of saturation", PyStr "abc%")] "Degree of saturation".
Proof.
  intros [rt Hkept].
  destruct (Hkept (PyStr "abc%")) as (dd & Hdd & Hget).
  - reflexivity.
  - by vm_compute.
  - rewrite coerce_numeric_total in Hdd. injection Hdd as <-.
    vm_compute in Hget. discriminate.
Qed.

(** ** The submit handler of the batch flow *)

Lemma fold_left_snoc {A B} (f : A → B) (l : list A) (acc : list B) :
  fold_left (λ rows x, rows ++ [f x]) l acc = acc ++ (f <$> l).
Proof.
  revert acc. induction l as [|x l IH]; intros acc; simpl.
  - by rewrite app_nil_r.
  - by rewrite IH, <- app_assoc.
Qed.

Lemma expand_rows_selected cat_cols row_base aircraft_selected :
  "Aircraft Name" ∈ cat_cols → aircraft_selected ≠ [] →
  Batch.expand_rows cat_cols row_base aircraft_selected =
    Script [] (Done ((λ ac, dict_set "Aircraft Name" (PyStr ac) row_base)
                       <$> aircraft_selected)).
Proof.
  intros Hcat Hsel. unfold Batch.expand_rows. rewrite decide_True by done.
  destruct aircraft_selected as [|ac sel]; [done|].
  unfold dict_copy.
  by rewrite (fold_left_snoc
                (λ ac, dict_set "Aircraft Name" (PyStr ac) row_base)).
Qed.

Lemma expand_rows_empty cat_cols row_base :
  "Aircraft Name" ∈ cat_cols →
  Batch.expand_rows cat_cols row_base [] =
    Script [StWarning "Please select at least one aircraft."] Stopped.
Proof.
  intros Hcat. unfold Batch.expand_rows. by rewrite decide_True.
Qed.

Lemma expand_rows_no_aircraft cat_cols row_base aircraft_selected :
  "Aircraft Name" ∉ cat_cols →
  Batch.expand_rows cat_cols row_base aircraft_selected =
    Script [] (Done [row_base]).
Proof.
  intros Hcat. unfold Batch.expand_rows. by rewrite decide_False.
Qed.

Lemma np_unbound {A} (m : A) : Batch.load_global "np" m = Err (NameError "np").
Proof.
  unfold Batch.load_global. rewrite decide_False; [done|].
  unfold Batch.imported. rewrite !elem_of_cons, elem_of_nil.
  intros [?|[?|[?|[?|[]]]]]; discriminate.
Qed.

(** Once the rows are there, the handler reconciles them, calls [predict]
    once and reports a failure: that of [predict], or else the unbound
    [np]. *)
Lemma predict_handler_after_expansion rt pipeline num_cols cat_cols row_base
    aircraft_selected rows :
  Batch.expand_rows cat_cols row_base aircraft_selected
    = Script [] (Done rows) →
  ∃ X, Batch.reconcile rt num_cols cat_cols rows = Ok X
    ∧ Batch.predict_handler rt pipeline num_cols cat_cols row_base
        aircraft_selected =
      Script [CallPredict X;
              StError ("Prediction failed: " +:+
                       exn_str match predict pipeline X with
                               | Ok _ => NameError "np"
                               | Err e => e
                               end)]
             (Done tt).
Proof.
  intros Hrows. eexists. split; [apply reconcile_spec|].
  unfold Batch.predict_handler. rewrite Hrows.
  cbn [mbind script_bind trace result app]. rewrite reconcile_spec.
  unfold call_predict.
  cbn [mbind script_bind lift emit trace result app].
  destruct (predict pipeline _) as [pred|e]; [|reflexivity].
  cbn [mbind script_bind lift emit trace result app].
  rewrite np_unbound. reflexivity.
Qed.

(** C2. With "Aircraft Name" among the categorical columns, a non-empty
    selection of n identifiers gives exactly n rows, the i-th carrying the
    i-th identifier under "Aircraft Name", and every row agrees with the
    base row, hence with every other row, on every other field. Without
    "Aircraft Name" in the schema the rows are the base row alone. *)
Theorem batch_expansion cat_cols row_base aircraft_selected :
  ("Aircraft Name" ∈ cat_cols → aircraft_selected ≠ [] →
   ∃ rows,
     Batch.expand_rows cat_cols row_base aircraft_selected
       = Script [] (Done rows)
     ∧ length rows = length aircraft_selected
     ∧ (∀ i ac, aircraft_selected !! i = Some ac →
          ∃ d, rows !! i = Some d
            ∧ dict_get d "Aircraft Name" = Some (PyStr ac)
            ∧ ∀ k, k ≠ "Aircraft Name" → dict_get d k = dict_get row_base k)
     ∧ (∀ i j d d' k, rows !! i = Some d → rows !! j = Some d' →
          k ≠ "Aircraft Name" → dict_get d k = dict_get d' k))
  ∧ ("Aircraft Name" ∉ cat_cols →
     Batch.expand_rows cat_cols row_base aircraft_selected
       = Script [] (Done [row_base])).
Proof.
  split; [|apply expand_rows_no_aircraft].
  intros Hcat Hsel. eexists.
  split; [by apply expand_rows_selected|].
  assert (∀ i d k,
            ((λ ac, dict_set "Aircraft Name" (PyStr ac) row_base)
               <$> aircraft_selected) !! i = Some d →
            k ≠ "Aircraft Name" → dict_get d k = dict_get row_base k)
    as Hbase.
  { intros i d k Hi Hk. rewrite list_lookup_fmap in Hi.
    destruct (aircraft_selected !! i) as [ac|]; simplify_eq/=.
    by apply dict_get_set_ne. }
  split_and!.
  - apply length_fmap.
  - intros i ac Hi. eexists. rewrite list_lookup_fmap, Hi. simpl.
    split_and!; [done|apply dict_get_set_eq|].
    intros k Hk. by apply dict_get_set_ne.
  - intros i j d d' k Hi Hj Hk.
    by rewrite (Hbase i d k Hi Hk), (Hbase j d' k Hj Hk).
Qed.

Lemma batch_expansion_witness :
  (∃ rows,
     Batch.expand_rows example_cat_cols example_row example_selection
       = Script [] (Done rows)
     ∧ length rows = 3%nat
     ∧ (∃ d, rows !! 1%nat = Some d
          ∧ dict_get d "Aircraft Name" = Some (PyStr "B737")
          ∧ dict_get d "Runway" = dict_get example_row "Runway"))
  ∧ Batch.expand_rows ["Subgrade soil type"] example_row []
      = Script [] (Done [example_row]).
Proof.
  split.
  - destruct (batch_expansion example_cat_cols example_row example_selection)
      as [Hsel _].
    destruct Hsel as (rows & Hrows & Hlen & Hith & _).
    + apply (bool_decide_unpack _). by vm_compute.
    + discriminate.
    + exists rows. split_and!; [done|done|].
      destruct (Hith 1%nat "B737" eq_refl) as (d & Hd & Hac & Hother).
      exists d. split_and!; [done|done|]. apply Hother. discriminate.
  - destruct (batch_expansion ["Subgrade soil type"] example_row [])
      as [_ Hnone].
    apply Hnone. apply (bool_decide_unpack _). by vm_compute.
Defined.

(** C7. With "Aircraft Name" among the categorical columns and nothing
    selected, a submission shows the warning and ends the run there: no
    call of [predict] or [predict_proba] is made and no error is shown.
    The handler keeps no state, so the next submission, with a selection,
    reconciles its rows and calls [predict]. *)
Theorem empty_selection_rejected rt pipeline num_cols cat_cols row_base :
  "Aircraft Name" ∈ cat_cols →
  Batch.predict_handler rt pipeline num_cols cat_cols row_base []
    = Script [StWarning "Please select at least one aircraft."] Stopped
  ∧ (∀ ev, ev ∈ trace (Batch.predict_handler rt pipeline num_cols cat_cols
                         row_base []) → ¬ is_inference ev)
  ∧ (∀ aircraft_selected, aircraft_selected ≠ [] →
       ∃ X, CallPredict X
              ∈ trace (Batch.predict_handler rt pipeline num_cols cat_cols
                         row_base aircraft_selected)).
Proof.
  intros Hcat.
  assert (Batch.predict_handler rt pipeline num_cols cat_cols row_base []
            = Script [StWarning "Please select at least one aircraft."]
                     Stopped) as Hrun.
  { unfold Batch.predict_handler. by rewrite expand_rows_empty. }
  split_and!; [done| |].
  - intros ev. rewrite Hrun. simpl. rewrite list_elem_of_singleton.
    intros -> [].
  - intros sel Hsel.
    destruct (predict_handler_after_expansion rt pipeline num_cols cat_cols
                row_base sel _ (expand_rows_selected _ _ _ Hcat Hsel))
      as (X & _ & ->).
    exists X. simpl. left.
Qed.

Lemma empty_selection_rejected_witness :
  Batch.predict_handler example_runtime example_pipeline example_num_cols
    example_cat_cols example_row []
    = Script [StWarning "Please select at least one aircraft."] Stopped
  ∧ ∃ X, CallPredict X
           ∈ trace (Batch.predict_handler example_runtime example_pipeline
                      example_num_cols example_cat_cols example_row
                      example_selection).
Proof.
  destruct (empty_selection_rejected example_runtime example_pipeline
              example_num_cols example_cat_cols example_row)
    as (Hrun & _ & Hnext).
  - apply (bool_decide_unpack _). by vm_compute.
  - split; [done|]. apply Hnext. discriminate.
Defined.

(** C3 (the code fails it). With three aircraft selected and [predict]
    returning the labels 1, 0, 1, the batch handler renders no label: the
    name [np] in [np.where] is bound by no import, and the handler shows
    the NameError instead of the results. *)
Theorem batch_labels_not_rendered :
  ∃ X,
    Batch.reconcile example_runtime example_num_cols example_cat_cols
      ((λ ac, dict_set "Aircraft Name" (PyStr ac) example_row)
         <$> example_selection) = Ok X
    ∧ predict example_pipeline X = Ok [1; 0; 1]
    ∧ Batch.predict_handler example_runtime example_pipeline
        example_num_cols example_cat_cols example_row example_selection
      = Script [CallPredict X; StError np_not_defined] (Done tt).
Proof. eexists. split_and!; by vm_compute. Qed.

(** What [np.where] would have given, and what the single-row variant
    renders for its one label. *)
Lemma np_where_labels (pred : list Z) i y :
  pred !! i = Some y →
  np_where numpy ((λ y, bool_decide (y = 1)) <$> pred) "Overloaded" "Safe"
    !! i = Some (if decide (y = 1) then "Overloaded" else "Safe").
Proof.
  intros Hi. simpl. rewrite !list_lookup_fmap, Hi. simpl.
  by destruct (decide (y = 1)); [rewrite bool_decide_true|rewrite bool_decide_false].
Qed.

Lemma single_label_rendered y :
  Single.render_label y = "Overload" ↔ y = 1.
Proof. unfold Single.render_label. by case_decide. Qed.

(** For every submission: the batch handler never shows a results table. *)
Lemma batch_handler_shows_no_results rt pipeline num_cols cat_cols row_base
    aircraft_selected ev :
  ev ∈ trace (Batch.predict_handler rt pipeline num_cols cat_cols row_base
                aircraft_selected) →
  match ev with StDataframe _ => False | _ => True end.
Proof.
  destruct (decide ("Aircraft Name" ∈ cat_cols)) as [Hcat|Hcat].
  - destruct aircraft_selected as [|ac sel].
    + unfold Batch.predict_handler. rewrite expand_rows_empty by done.
      simpl. rewrite list_elem_of_singleton. by intros ->.
    + assert (ac :: sel ≠ []) as Hsel by discriminate.
      destruct (predict_handler_after_expansion rt pipeline num_cols cat_cols
                  row_base (ac :: sel) _
                  (expand_rows_selected _ row_base _ Hcat Hsel))
        as (X & _ & ->).
      simpl. rewrite !elem_of_cons, elem_of_nil. by intros [->|[->|[]]].
  - destruct (predict_handler_after_expansion rt pipeline num_cols cat_cols
                row_base aircraft_selected _
                (expand_rows_no_aircraft _ _ _ Hcat))
      as (X & _ & ->).
    simpl. rewrite !elem_of_cons, elem_of_nil. by intros [->|[->|[]]].
Qed.

(** ** The schema introspector *)

Lemma schema_fold (ts : list (string * Transformer * list string))
    (num0 cat0 : list string) :
  ∃ num cat,
    fold_left
      (λ '(num_cols, cat_cols) '(name, trans, cols),
         if decide (name = "num") then (cols, cat_cols)
         else if decide (name = "cat") then (num_cols, cols)
         else (num_cols, cat_cols))
      ts (num0, cat0) = (num, cat)
    ∧ ("num" ∉ ts.*1.*1 → num = num0)
    ∧ ("cat" ∉ ts.*1.*1 → cat = cat0).
Proof.
  revert num0 cat0. induction ts as [|[[name trans] cols] ts IH];
    intros num0 cat0; simpl.
  - by exists num0, cat0.
  - destruct (decide (name = "num")) as [->|Hnum].
    + destruct (IH cols cat0) as (num & cat & -> & _ & Hcat).
      exists num, cat. split_and!; [done| |].
      * rewrite not_elem_of_cons. by intros [? _].
      * rewrite not_elem_of_cons. intros [_ ?]. by apply Hcat.
    + destruct (decide (name = "cat")) as [->|Hcat'].
      * destruct (IH num0 cols) as (num & cat & -> & Hn & _).
        exists num, cat. split_and!; [done| |].
        -- rewrite not_elem_of_cons. intros [_ ?]. by apply Hn.
        -- rewrite not_elem_of_cons. by intros [? _].
      * destruct (IH num0 cat0) as (num & cat & -> & Hn & Hc).
        exists num, cat. split_and!; [done| |].
        -- rewrite not_elem_of_cons. intros [_ ?]. by apply Hn.
        -- rewrite not_elem_of_cons. intros [_ ?]. by apply Hc.
Qed.

(** C6. For every pipeline with a preprocessing stage, the introspector
    returns without an error; when no triple is named "cat" (only "num"
    present, say) the categorical list is empty, and when no triple is
    named "num" the numeric list is empty. *)
Theorem missing_stage_gives_empty_list pipeline prep ts :
  dict_get (named_steps pipeline) "prep" = Some prep →
  transformers_ prep = Some ts →
  ∃ num_cols cat_cols,
    get_expected_input_columns pipeline = Ok (num_cols, cat_cols)
    ∧ ("cat" ∉ ts.*1.*1 → cat_cols = [])
    ∧ ("num" ∉ ts.*1.*1 → num_cols = []).
Proof.
  intros Hprep Hts. unfold get_expected_input_columns, dict_getitem.
  rewrite Hprep. cbn [mbind res_bind]. unfold getattr_transformers_.
  rewrite Hts. cbn [mbind res_bind].
  destruct (schema_fold ts [] []) as (num & cat & -> & Hnum & Hcat).
  by exists num, cat.
Qed.

Lemma missing_stage_gives_empty_list_witness :
  get_expected_input_columns example_num_only_pipeline
    = Ok (example_num_cols, []).
Proof.
  destruct (missing_stage_gives_empty_list example_num_only_pipeline
              {| transformers_ :=
                   Some [("num", OpaqueTransformer "StandardScaler",
                          example_num_cols)];
                 has_predict_proba := false |}
              [("num", OpaqueTransformer "StandardScaler", example_num_cols)]
              eq_refl eq_refl)
    as (num & cat & Hcols & Hcat & _).
  rewrite Hcols. rewrite Hcat.
  - vm_compute in Hcols. by injection Hcols as <- _.
  - apply (bool_decide_unpack _). by vm_compute.
Defined.

(** ** The choice extractor *)

Section choices.
Context {V : Type}.
Implicit Types (d : dict V) (k : string) (v : V).

Lemma dict_set_elem_of d k v c x :
  (c, x) ∈ dict_set k v d → (c, x) = (k, v) ∨ (c, x) ∈ d.
Proof.
  induction d as [|[k' v'] d IH]; simpl.
  - rewrite list_elem_of_singleton. by left.
  - destruct (decide (k' = k)) as [->|Hne]; rewrite !elem_of_cons.
    + intros [?|?]; [by left | right; by right].
    + intros [?|Hin]; [right; by left|].
      destruct (IH Hin); [by left | right; by right].
Qed.

Lemma dict_keys_set d k v c :
  c ∈ dict_keys (dict_set k v d) ↔ c = k ∨ c ∈ dict_keys d.
Proof.
  unfold dict_keys. induction d as [|[k' v'] d IH]; simpl.
  - rewrite list_elem_of_singleton, elem_of_nil. tauto.
  - destruct (decide (k' = k)) as [->|Hne]; simpl; rewrite !elem_of_cons.
    + tauto.
    + rewrite IH. tauto.
Qed.

(** A label carried by exactly one column selects that column. *)
Lemma filter_label_single d k :
  k ∈ dict_keys d → (length (filter (λ p, p.1 = k) d) ≤ 1)%nat →
  ∃ v, filter (λ p, p.1 = k) d = [(k, v)].
Proof.
  intros Hin Hlen.
  assert (∃ v, (k, v) ∈ filter (λ p, p.1 = k) d) as [v Hv].
  { apply list_elem_of_fmap in Hin as ([k' v] & -> & Hin).
    exists v. by apply list_elem_of_filter. }
  destruct (filter _ d) as [|p [|q l]]; simpl in Hlen.
  - by apply elem_of_nil in Hv.
  - apply list_elem_of_singleton in Hv as <-. by exists v.
  - lia.
Qed.
End choices.

Lemma sorted_choices_spec (l : list string) :
  Sorted String.le (sorted_choices l)
  ∧ NoDup (sorted_choices l)
  ∧ "" ∉ sorted_choices l.
Proof.
  unfold sorted_choices. split_and!.
  - apply (Sorted_merge_sort String.le).
  - rewrite merge_sort_Permutation. apply NoDup_filter, NoDup_unique.
  - rewrite merge_sort_Permutation, list_elem_of_filter. by intros [? _].
Qed.

(** The loop over the three target columns, for any list of columns. *)
Lemma choices_loop rt (df : dict (list value)) (l : list string)
    (choices : dict (list string)) :
  (∀ col, col ∈ l → col ∈ df.*1 →
          ∃ vals, stripped_strings rt df col = Ok vals) →
  ∃ choices',
    for_in l
      (λ choices col,
         if decide (col ∈ df.*1) then
           vals ← stripped_strings rt df col;
           let vals := sorted_choices vals in
           Ok (dict_set col vals choices)
         else Ok choices)
      choices = Ok choices'
    ∧ ∀ c, c ∈ dict_keys choices' ↔
           c ∈ dict_keys choices ∨ (c ∈ l ∧ c ∈ df.*1).
Proof.
  revert choices. induction l as [|col l IH]; intros choices Hread.
  - exists choices. split; [done|]. intros c. rewrite elem_of_nil. tauto.
  - cbn [for_in]. destruct (decide (col ∈ df.*1)) as [Hcol|Hcol].
    + destruct (Hread col) as [vals Hvals]; [left|done|].
      rewrite Hvals. cbn [mbind res_bind].
      destruct (IH (dict_set col (sorted_choices vals) choices))
        as (choices' & Hloop & Hkeys).
      { intros c Hc. apply Hread. by right. }
      exists choices'. split; [exact Hloop|]. intros c.
      rewrite Hkeys, dict_keys_set, elem_of_cons.
      split; [|intros [?|[[->|?] ?]]; tauto].
      intros [[->|?]|[? ?]]; tauto.
    + cbn [mbind res_bind].
      destruct (IH choices) as (choices' & Hloop & Hkeys).
      { intros c Hc. apply Hread. by right. }
      exists choices'. split; [exact Hloop|]. intros c.
      rewrite Hkeys, elem_of_cons.
      split; [tauto|]. intros [?|[[->|?] ?]]; tauto.
Qed.

(** C5. For every upload, whenever the extractor returns a Choice Table,
    its keys are among the three target columns and among the labels of
    the sheet, and every value list is sorted, has no duplicates and no
    empty string. It does return one when a sheet can be read and no
    target label is carried by two columns, and the keys are then exactly
    the target columns the sheet has: an absent one is left out without
    an error. *)
Theorem choice_table_sorted_unique rt wb :
  (∀ choices, extract_choices_from_excel rt wb = Ok choices →
     ∃ df, load_sheet wb = Ok df
       ∧ ∀ col vals, (col, vals) ∈ choices →
           col ∈ target_columns ∧ col ∈ sheet_labels rt df
           ∧ Sorted String.le vals ∧ NoDup vals ∧ "" ∉ vals)
  ∧ (∀ df, load_sheet wb = Ok df →
       (∀ col, col ∈ target_columns → (label_count rt df col ≤ 1)%nat) →
       ∃ choices, extract_choices_from_excel rt wb = Ok choices
         ∧ ∀ col, col ∈ dict_keys choices ↔
                  col ∈ target_columns ∧ col ∈ sheet_labels rt df).
Proof.
  unfold extract_choices_from_excel. split.
  - intros choices. destruct (load_sheet wb) as [df|e]; [|done].
    cbn [mbind res_bind]. intros Hloop. exists df. split; [done|].
    apply (for_in_invariant
             (λ ch : dict (list string), ∀ col vals, (col, vals) ∈ ch →
                col ∈ target_columns ∧ col ∈ sheet_labels rt df
                ∧ Sorted String.le vals ∧ NoDup vals ∧ "" ∉ vals)
             _ _ _ _ Hloop).
    + intros col vals Hin. by apply elem_of_nil in Hin.
    + intros ch col ch' Htarget Hch.
      destruct (decide (col ∈ _)) as [Hcol|Hcol]; [|by intros [= <-]].
      destruct (stripped_strings rt _ col) as [vals|e]; [|done].
      cbn [mbind res_bind]. intros [= <-] c x Hin.
      apply dict_set_elem_of in Hin as [[= -> ->]|Hin]; [|by apply Hch].
      destruct (sorted_choices_spec vals) as (? & ? & ?). by split_and!.
  - intros df -> Hcount. cbn [mbind res_bind].
    destruct (choices_loop rt (relabel rt df) target_columns [])
      as (choices & Hloop & Hkeys).
    + intros col Htarget Hcol. unfold stripped_strings.
      destruct (filter_label_single (relabel rt df) col Hcol) as [v ->].
      * by apply Hcount.
      * by eexists.
    + exists choices. split; [exact Hloop|]. intros col. rewrite Hkeys.
      unfold dict_keys at 1. simpl. rewrite elem_of_nil. tauto.
Qed.

Lemma choice_table_sorted_unique_witness :
  ∃ choices, extract_choices_from_excel example_runtime example_workbook
               = Ok choices
    ∧ dict_keys choices = ["Aircraft Name"]
    ∧ ∀ col vals, (col, vals) ∈ choices →
        Sorted String.le vals ∧ NoDup vals ∧ "" ∉ vals.
Proof.
  destruct (choice_table_sorted_unique example_runtime example_workbook)
    as [Hprop Htotal].
  destruct (Htotal example_sheet eq_refl) as (choices & Hchoices & _).
  - intros col Hcol. apply (bool_decide_unpack _).
    revert Hcol. unfold target_columns.
    rewrite !elem_of_cons, elem_of_nil.
    by intros [->|[->|[->|[]]]]; vm_compute.
  - exists choices. split_and!; [done| |].
    + vm_compute in Hchoices. by injection Hchoices as <-.
    + destruct (Hprop choices Hchoices) as (df & _ & Hvals).
      intros col vals Hin. by destruct (Hvals col vals Hin) as (_ & _ & ?).
Defined.

(** * Further properties of the two scripts *)

(** Closed, decidable goals, by evaluation. *)
Ltac by_eval := apply (bool_decide_unpack _); vm_compute; exact I.

(** ** The schema introspector: overriding and failures *)

(** X1. When several triples carry the name "num" (or "cat"), the columns
    of the last one are returned: a later triple replaces what an earlier
    one gave. *)
Theorem last_stage_wins pipeline prep ts1 name tr cols ts2 :
  dict_get (named_steps pipeline) "prep" = Some prep →
  transformers_ prep = Some (ts1 ++ (name, tr, cols) :: ts2) →
  name ∉ ts2.*1.*1 →
  ∃ num_cols cat_cols,
    get_expected_input_columns pipeline = Ok (num_cols, cat_cols)
    ∧ (name = "num" → num_cols = cols)
    ∧ (name = "cat" → cat_cols = cols).
Proof.
  intros Hprep Hts Hlast. unfold get_expected_input_columns, dict_getitem.
  rewrite Hprep. cbn [mbind res_bind]. unfold getattr_transformers_.
  rewrite Hts. cbn [mbind res_bind]. rewrite fold_left_app.
  destruct (fold_left _ ts1 ([], [])) as [num1 cat1]. cbn [fold_left].
  destruct (decide (name = "num")) as [->|Hnum].
  - destruct (schema_fold ts2 cols cat1) as (num & cat & -> & Hn & _).
    exists num, cat. split_and!; [done| |done]. intros _. by apply Hn.
  - destruct (decide (name = "cat")) as [->|Hcat].
    + destruct (schema_fold ts2 num1 cols) as (num & cat & -> & _ & Hc).
      exists num, cat. split_and!; [done|done|]. intros _. by apply Hc.
    + destruct (schema_fold ts2 num1 cat1) as (num & cat & -> & _ & _).
      by exists num, cat.
Qed.

Lemma last_stage_wins_witness :
  ∃ cat_cols,
    get_expected_input_columns
      {| named_steps :=
           [("prep",
             {| transformers_ :=
                  Some [("num", OpaqueTransformer "a", ["CBR"]);
                        ("num", OpaqueTransformer "b", example_num_cols);
                        ("remainder", OpaqueTransformer "drop", [])];
                has_predict_proba := false |})];
         predict := λ _, Ok [];
         predict_proba := λ _, Ok [] |}
    = Ok (example_num_cols, cat_cols).
Proof.
  destruct (last_stage_wins
              {| named_steps :=
                   [("prep",
                     {| transformers_ :=
                          Some [("num", OpaqueTransformer "a", ["CBR"]);
                                ("num", OpaqueTransformer "b",
                                 example_num_cols);
                                ("remainder", OpaqueTransformer "drop", [])];
                        has_predict_proba := false |})];
                 predict := λ _, Ok [];
                 predict_proba := λ _, Ok [] |}
              {| transformers_ :=
                   Some [("num", OpaqueTransformer "a", ["CBR"]);
                         ("num", OpaqueTransformer "b", example_num_cols);
                         ("remainder", OpaqueTransformer "drop", [])];
                 has_predict_proba := false |}
              [("num", OpaqueTransformer "a", ["CBR"])]
              "num" (OpaqueTransformer "b") example_num_cols
              [("remainder", OpaqueTransformer "drop", [])]
              eq_refl eq_refl)
    as (num & cat & Hcols & Hnum & _).
  - apply (bool_decide_unpack _). by vm_compute.
  - exists cat. rewrite Hcols. by rewrite (Hnum eq_refl).
Defined.

(** X2. On a pipeline whose column specifications are lists of column
    names, [build_input_df] fails in the introspector only: it raises
    exactly when [get_expected_input_columns] does, and then with the
    introspector's own exception, whatever the row holds. Coercion and
    reindexing never fail. *)
Theorem build_input_df_fails_in_schema_only rt pipeline row :
  (raises (Single.build_input_df rt pipeline row) ↔
     raises (get_expected_input_columns pipeline))
  ∧ (∀ e, get_expected_input_columns pipeline = Err e →
          Single.build_input_df rt pipeline row = Err e).
Proof.
  destruct (get_expected_input_columns pipeline) as [[num cat]|e] eqn:Hc.
  - rewrite (build_input_df_reconcile _ _ _ _ _ Hc), reconcile_spec.
    by split.
  - unfold Single.build_input_df. rewrite Hc. cbn [mbind res_bind].
    split; [done|]. by intros e' [= ->].
Qed.

Lemma build_input_df_fails_in_schema_only_witness :
  Single.build_input_df example_runtime
    {| named_steps := [("model", {| transformers_ := None;
                                    has_predict_proba := true |})];
       predict := λ _, Ok [1];
       predict_proba := λ _, Ok [] |}
    example_row
  = Err (KeyError "prep").
Proof.
  by apply build_input_df_fails_in_schema_only.
Defined.

(** ** The numeric coercion on the rows of the form *)

Lemma dict_set_same {V} (d : dict V) k v :
  dict_get d k = Some v → dict_set k v d = d.
Proof.
  induction d as [|[k' v'] d IH]; simpl; [done|].
  destruct (decide (k' = k)) as [->|Hne].
  - by intros [= ->].
  - intros Hget. by rewrite IH.
Qed.

(** X3. On a row whose known-numeric fields, where present, hold floats
    (as the steppers of the form give them), the coercion returns the row
    itself. *)
Theorem coercion_identity_on_floats rt d :
  (∀ k v, k ∈ numeric_fields → dict_get d k = Some v → ∃ f, v = PyFloat f) →
  Batch.coerce_numeric rt d = Ok d.
Proof.
  intros Hfloat. rewrite coerce_numeric_unfold.
  assert (clean_saturation d = d) as ->.
  { unfold clean_saturation.
    destruct (dict_get d "Degree of saturation") as [v|] eqn:Hv; [|done].
    by destruct (Hfloat "Degree of saturation" v) as [f ->]; [by_eval|..]. }
  assert (∀ k, k ∈ numeric_fields → coerce_step rt d k = Ok d) as Hstep.
  { intros k Hk. unfold coerce_step.
    destruct (dict_get d k) as [v|] eqn:Hv; [|done].
    destruct (Hfloat k v Hk Hv) as [f ->]. simpl.
    by rewrite dict_set_same. }
  change (for_in numeric_fields (coerce_step rt) d)
    with (for_in ["Gross Wt. (lbs)"; "Degree of saturation"; "CBR"]
            (coerce_step rt) d).
  cbn [for_in]. rewrite Hstep by by_eval. cbn [mbind res_bind].
  rewrite Hstep by by_eval. cbn [mbind res_bind].
  rewrite Hstep by by_eval. done.
Qed.

Lemma coercion_identity_on_floats_witness :
  Batch.coerce_numeric example_runtime
    [("CBR", PyFloat float_85); ("Runway", PyStr "09L")]
  = Ok [("CBR", PyFloat float_85); ("Runway", PyStr "09L")].
Proof.
  apply coercion_identity_on_floats.
  intros k v Hk. simpl. repeat case_decide; intros [= <-].
  - by exists float_85.
  - subst. revert Hk. unfold numeric_fields.
    rewrite !elem_of_cons, elem_of_nil. intros [?|[?|[?|[]]]]; discriminate.
Defined.

(** ** The submit handlers, whatever the input *)

(** X4. Every submission to the batch handler ends in one of two ways: the
    warning alone, with the run stopped, or one call of [predict] on the
    reconciled table followed by one error message. It never calls
    [predict_proba] and never shows a results table or the debug view. *)
Theorem batch_handler_outcomes rt pipeline num_cols cat_cols row_base
    aircraft_selected :
  Batch.predict_handler rt pipeline num_cols cat_cols row_base
    aircraft_selected
    = Script [StWarning "Please select at least one aircraft."] Stopped
  ∨ ∃ rows X msg,
      Batch.expand_rows cat_cols row_base aircraft_selected
        = Script [] (Done rows)
      ∧ Batch.reconcile rt num_cols cat_cols rows = Ok X
      ∧ Batch.predict_handler rt pipeline num_cols cat_cols row_base
          aircraft_selected
        = Script [CallPredict X; StError msg] (Done tt).
Proof.
  assert (∀ rows,
            Batch.expand_rows cat_cols row_base aircraft_selected
              = Script [] (Done rows) →
            ∃ rows X msg,
              Batch.expand_rows cat_cols row_base aircraft_selected
                = Script [] (Done rows)
              ∧ Batch.reconcile rt num_cols cat_cols rows = Ok X
              ∧ Batch.predict_handler rt pipeline num_cols cat_cols row_base
                  aircraft_selected
                = Script [CallPredict X; StError msg] (Done tt)) as Hrun.
  { intros rows Hrows.
    destruct (predict_handler_after_expansion rt pipeline num_cols cat_cols
                row_base aircraft_selected rows Hrows) as (X & HX & Hh).
    by eexists rows, X, _. }
  destruct (decide ("Aircraft Name" ∈ cat_cols)) as [Hcat|Hcat].
  - destruct aircraft_selected as [|ac sel].
    + left. unfold Batch.predict_handler. by rewrite expand_rows_empty.
    + right. eapply Hrun. by apply expand_rows_selected.
  - right. eapply Hrun. by apply expand_rows_no_aircraft.
Qed.

Lemma reconciled_frame_exists rt pipeline row :
  (∃ cols, get_expected_input_columns pipeline = Ok cols) →
  ∃ X, Single.build_input_df rt pipeline row = Ok X.
Proof.
  intros [[num cat] Hcols]. eexists.
  rewrite (build_input_df_reconcile _ _ _ _ _ Hcols). apply reconcile_spec.
Qed.

(** How the single-row handler runs once the table is built. *)
Lemma single_handler_run rt pipeline row X :
  Single.build_input_df rt pipeline row = Ok X →
  Single.predict_handler rt pipeline row =
    match predict pipeline X with
    | Ok (y :: _) =>
        Script
          ([CallPredict X;
            StSuccess ("Prediction: **" +:+ Single.render_label y +:+ "**")]
           ++ match getattr_predict_proba pipeline with
              | Ok method =>
                  CallPredictProba X
                  :: match P ← method X; Single.first_positive_prob P with
                     | Ok prob =>
                         [StWrite ("Probability of Overload: **"
                                   +:+ format3 rt prob +:+ "**")]
                     | Err _ => []
                     end
              | Err _ => []
              end
           ++ [StExpander "Show input row (debug)" X])
          (Done tt)
    | Ok [] =>
        Script [CallPredict X;
                StError "Prediction failed: index 0 is out of bounds"]
               (Done tt)
    | Err e =>
        Script [CallPredict X; StError ("Prediction failed: " +:+ exn_str e)]
               (Done tt)
    end.
Proof.
  intros HX. unfold Single.predict_handler. rewrite HX.
  unfold call_predict, call_predict_proba.
  cbn [mbind script_bind lift emit trace result app].
  destruct (predict pipeline X) as [[|y ys]|e]; [reflexivity| |reflexivity].
  cbn [mbind script_bind lift emit trace result app Single.first_label].
  destruct (getattr_predict_proba pipeline) as [method|e]; [|reflexivity].
  cbn [mbind script_bind lift emit trace result app].
  destruct (method X) as [P|e]; [|reflexivity].
  cbn [mbind res_bind script_bind lift emit trace result app].
  by destruct (Single.first_positive_prob P).
Qed.

(** X5. In the single-row flow, when [predict] returns at least one label,
    the handler shows "Overload" exactly when the first label is 1 and
    "Safe" otherwise (later labels are ignored), always ends with the debug
    view of the table and shows no error. Between the two it calls
    [predict_proba] once when the pipeline has the method, and not at all
    when it has not: the lookup raises and nothing is called. It shows at
    most one probability line, and none when the method is missing or its
    call raises: either failure is swallowed. *)
Theorem single_prediction_shown rt pipeline row X y ys :
  Single.build_input_df rt pipeline row = Ok X →
  predict pipeline X = Ok (y :: ys) →
  ∃ calls lines,
    Single.predict_handler rt pipeline row =
      Script ([CallPredict X;
               StSuccess ("Prediction: **"
                          +:+ (if decide (y = 1) then "Overload" else "Safe")
                          +:+ "**")]
              ++ calls ++ lines ++ [StExpander "Show input row (debug)" X])
             (Done tt)
    ∧ (raises (getattr_predict_proba pipeline) → calls = [] ∧ lines = [])
    ∧ (∀ method, getattr_predict_proba pipeline = Ok method →
         calls = [CallPredictProba X] ∧ (raises (method X) → lines = []))
    ∧ (lines = [] ∨ ∃ text, lines = [StWrite text]).
Proof.
  intros HX Hpred. rewrite (single_handler_run _ _ _ _ HX), Hpred.
  destruct (getattr_predict_proba pipeline) as [method|e].
  - eexists [CallPredictProba X], _. split; [reflexivity|].
    split; [done|]. split.
    + intros ? [= <-]. split; [done|].
      by destruct (method X).
    + destruct (method X) as [P|?]; cbn [mbind res_bind]; [|by left].
      destruct (Single.first_positive_prob P); eauto.
  - exists [], []. split; [reflexivity|]. split; [done|].
    split; [done | by left].
Qed.

Lemma single_prediction_shown_witness :
  ∃ X lines,
    Single.predict_handler example_runtime example_pipeline example_row =
      Script ([CallPredict X; StSuccess "Prediction: **Overload**";
               CallPredictProba X]
              ++ lines ++ [StExpander "Show input row (debug)" X])
             (Done tt).
Proof.
  destruct (reconciled_frame_exists example_runtime example_pipeline
              example_row) as [X HX]; [by eexists|].
  destruct (single_prediction_shown example_runtime example_pipeline
              example_row X 1 [0; 1] HX eq_refl)
    as (calls & lines & Hrun & _ & Hcall & _).
  destruct (Hcall _ eq_refl) as [-> _].
  by exists X, lines.
Defined.

(** X6. In the single-row flow, when [predict] raises or returns no label,
    the handler shows that one error after the one call of [predict], and
    [predict_proba] is not called. *)
Theorem single_prediction_failure rt pipeline row X :
  Single.build_input_df rt pipeline row = Ok X →
  (∀ e, predict pipeline X = Err e →
     Single.predict_handler rt pipeline row =
       Script [CallPredict X; StError ("Prediction failed: " +:+ exn_str e)]
              (Done tt))
  ∧ (predict pipeline X = Ok [] →
     Single.predict_handler rt pipeline row =
       Script [CallPredict X;
               StError "Prediction failed: index 0 is out of bounds"]
              (Done tt)).
Proof.
  intros HX. rewrite (single_handler_run _ _ _ _ HX).
  split; [intros e Hpred | intros Hpred]; by rewrite Hpred.
Qed.

Lemma single_prediction_failure_witness :
  ∃ X,
    Single.predict_handler example_runtime example_num_only_pipeline
      example_row =
      Script [CallPredict X;
              StError "Prediction failed: index 0 is out of bounds"]
             (Done tt).
Proof.
  destruct (reconciled_frame_exists example_runtime
              example_num_only_pipeline example_row) as [X HX];
    [by eexists|].
  destruct (single_prediction_failure example_runtime
              example_num_only_pipeline example_row X HX) as [_ Hempty].
  exists X. by apply Hempty.
Defined.

(** ** The choice extractor: what a value list holds *)

(** What the loop leaves under each key. *)
Lemma choices_loop_get rt (df : dict (list value)) (l : list string)
    (choices choices' : dict (list string)) :
  for_in l
    (λ choices col,
       if decide (col ∈ df.*1) then
         vals ← stripped_strings rt df col;
         let vals := sorted_choices vals in
         Ok (dict_set col vals choices)
       else Ok choices)
    choices = Ok choices' →
  ∀ c,
    (c ∈ l → c ∈ df.*1 →
       ∃ vals, stripped_strings rt df c = Ok vals
               ∧ dict_get choices' c = Some (sorted_choices vals))
    ∧ (¬ (c ∈ l ∧ c ∈ df.*1) → dict_get choices' c = dict_get choices c).
Proof.
  revert choices. induction l as [|col l IH]; intros choices Hloop c.
  - injection Hloop as <-. split; [by intros ?%elem_of_nil | done].
  - cbn [for_in] in Hloop.
    destruct (decide (col ∈ df.*1)) as [Hcol|Hcol].
    + destruct (stripped_strings rt df col) as [vals|e] eqn:Hvals;
        [|done].
      cbn [mbind res_bind] in Hloop.
      destruct (IH _ Hloop c) as [Hin Hout]. split.
      * intros Hc Hdf. destruct (decide (c ∈ l)) as [Hl|Hl]; [by apply Hin|].
        apply elem_of_cons in Hc as [->|?]; [|done].
        exists vals. split; [done|]. rewrite Hout by tauto.
        apply dict_get_set_eq.
      * intros Hnot. rewrite Hout.
        -- apply dict_get_set_ne. intros ->. apply Hnot. split; [left|done].
        -- intros [? ?]. apply Hnot. split; [by right|done].
    + cbn [mbind res_bind] in Hloop.
      destruct (IH _ Hloop c) as [Hin Hout]. split.
      * intros Hc Hdf. apply Hin; [|done].
        apply elem_of_cons in Hc as [->|?]; done.
      * intros Hnot. apply Hout. intros [? ?]. apply Hnot.
        split; [by right|done].
Qed.

Lemma sorted_choices_elem_of (l : list string) v :
  v ∈ sorted_choices l ↔ v ≠ "" ∧ v ∈ l.
Proof.
  unfold sorted_choices.
  by rewrite merge_sort_Permutation, list_elem_of_filter, elem_of_unique.
Qed.

(** X8. The value list depends only on which strings occur in the column,
    not on their order or on how often each occurs: two columns with the
    same strings give the same list. *)
Theorem sorted_choices_set (l l' : list string) :
  (∀ v, v ∈ l ↔ v ∈ l') → sorted_choices l = sorted_choices l'.
Proof.
  intros Hsame.
  destruct (sorted_choices_spec l) as (Hs & Hn & _).
  destruct (sorted_choices_spec l') as (Hs' & Hn' & _).
  apply (Sorted_unique String.le); [done|done|].
  apply NoDup_Permutation; [done|done|].
  intros v. rewrite !sorted_choices_elem_of. by rewrite Hsame.
Qed.

Lemma sorted_choices_set_witness :
  sorted_choices ["B737"; "A320"; "B737"] = sorted_choices ["A320"; "B737"].
Proof.
  apply sorted_choices_set. intros v.
  rewrite !elem_of_cons, !elem_of_nil. tauto.
Defined.

(** X9. The options of a dropdown, the blank entry followed by the value
    list of an extracted Choice Table, are sorted and without duplicates:
    the blank entry comes first and occurs once. *)
Theorem dropdown_options_sorted rt wb choices col opts :
  extract_choices_from_excel rt wb = Ok choices →
  dict_get choices col = Some opts →
  Sorted String.le ("" :: opts) ∧ NoDup ("" :: opts).
Proof.
  intros Hchoices Hget. unfold extract_choices_from_excel in Hchoices.
  destruct (load_sheet wb) as [df|e]; [|done].
  cbn [mbind res_bind] in Hchoices.
  destruct (choices_loop_get _ _ _ _ _ Hchoices col) as [Hin Hout].
  destruct (decide (col ∈ target_columns ∧ col ∈ (relabel rt df).*1))
    as [[Ht Hl]|Hnot].
  - destruct (Hin Ht Hl) as (vals & _ & Hvals).
    rewrite Hget in Hvals. injection Hvals as ->.
    destruct (sorted_choices_spec vals) as (Hs & Hn & He). split.
    + constructor; [done|].
      destruct (sorted_choices vals) as [|v ?]; constructor.
      by destruct v.
    + by constructor.
  - rewrite (Hout Hnot) in Hget. done.
Qed.

Lemma dropdown_options_sorted_witness :
  Sorted String.le ["" ; "12"; "A320"; "B737"]
  ∧ NoDup ["" ; "12"; "A320"; "B737"].
Proof.
  apply (dropdown_options_sorted example_runtime example_workbook
           [("Aircraft Name", ["12"; "A320"; "B737"])] "Aircraft Name").
  - by vm_compute.
  - reflexivity.
Defined.

(** X10. The block that loads the choices always completes, with one
    message at most: without an upload the choices are empty and nothing
    is shown; when the extraction raises, be it on an unreadable file,
    the choices are empty and one warning carries the text of the error;
    otherwise the choices are the extracted ones, after one success
    message. *)
Theorem load_choices_completes rt up_excel :
  ∃ msgs choices,
    load_choices rt up_excel = Script msgs (Done choices)
    ∧ match up_excel with
      | None => msgs = [] ∧ choices = []
      | Some wb =>
          match extract_choices_from_excel rt wb with
          | Ok extracted =>
              msgs = [StSuccess "Dropdown choices loaded from Excel."]
              ∧ choices = extracted
          | Err e =>
              msgs = [StWarning ("Could not read Excel: " +:+ exn_str e)]
              ∧ choices = []
          end
      end.
Proof.
  unfold load_choices. destruct up_excel as [wb|]; [|by eexists _, _].
  destruct (extract_choices_from_excel rt wb) as [extracted|e];
    by eexists _, _.
Qed.

(** ** The input forms *)

Section form_facts.
Context {V : Type}.
Implicit Types (d : dict V) (k : string) (v : V).

Lemma NoDup_dict_set d k v :
  NoDup (dict_keys d) → NoDup (dict_keys (dict_set k v d)).
Proof.
  unfold dict_keys. induction d as [|[k' v'] d IH]; simpl.
  - intros _. apply NoDup_singleton.
  - rewrite NoDup_cons. intros [Hk' Hd].
    destruct (decide (k' = k)) as [->|Hne]; simpl.
    + by apply NoDup_cons.
    + apply NoDup_cons. split; [|by apply IH].
      intros Hin. apply (dict_keys_set d k v k') in Hin as [?|?]; done.
Qed.

Lemma dict_get_set_if (P : Prop) `{Decision P} d k k' v :
  dict_get (set_if P k v d) k' =
    if decide (P ∧ k' = k) then Some v else dict_get d k'.
Proof.
  unfold set_if. destruct (decide P) as [HP|HP].
  - rewrite dict_get_set. destruct (decide (k' = k)) as [->|Hne].
    + by rewrite decide_True.
    + rewrite decide_False; [done | by intros [_ ?]].
  - rewrite decide_False; [done | by intros [? _]].
Qed.

Lemma NoDup_set_if (P : Prop) `{Decision P} d k v :
  NoDup (dict_keys d) → NoDup (dict_keys (set_if P k v d)).
Proof.
  unfold set_if. destruct (decide P); [apply NoDup_dict_set | done].
Qed.

(** The loop that adds a free text for each column not yet in the row,
    with the columns in [P] skipped. *)
Lemma text_loop_get (P : string → Prop) `{∀ c, Decision (P c)}
    (g : string → V) (l : list string) d k :
  dict_get
    (fold_left
       (λ row c,
          if decide (P c) then row
          else if decide (c ∈ dict_keys row) then row
          else dict_set c (g c) row)
       l d) k =
    match dict_get d k with
    | Some v => Some v
    | None => if decide (k ∈ l ∧ ¬ P k) then Some (g k) else None
    end.
Proof.
  revert d. induction l as [|c l IH]; intros d; cbn [fold_left].
  - destruct (dict_get d k); [done|].
    rewrite decide_False; [done | by intros [?%elem_of_nil _]].
  - rewrite IH. clear IH.
    assert (∀ Q : Prop, (k ∈ c :: l ∧ Q) ↔ ((k = c ∨ k ∈ l) ∧ Q)) as Hcons
      by (intros Q; by rewrite elem_of_cons).
    destruct (decide (P c)) as [HP|HP].
    { destruct (dict_get d k); [done|].
      destruct (decide (k ∈ l ∧ ¬ P k)) as [Hk|Hk].
      - rewrite decide_True; [done|]. apply Hcons. tauto.
      - rewrite decide_False; [done|]. rewrite Hcons.
        intros [[->|?] ?]; tauto. }
    destruct (decide (c ∈ dict_keys d)) as [Hc|Hc].
    { destruct (dict_get d k) eqn:Hget; [done|].
      assert (k ≠ c) as Hne.
      { intros ->. by apply dict_get_None in Hget. }
      destruct (decide (k ∈ l ∧ ¬ P k)) as [Hk|Hk].
      - rewrite decide_True; [done|]. apply Hcons. tauto.
      - rewrite decide_False; [done|]. rewrite Hcons. tauto. }
    rewrite dict_get_set. destruct (decide (k = c)) as [->|Hne].
    + apply dict_get_None in Hc. rewrite Hc.
      rewrite decide_True; [done|]. split; [left|done].
    + destruct (dict_get d k); [done|].
      destruct (decide (k ∈ l ∧ ¬ P k)) as [Hk|Hk].
      * rewrite decide_True; [done|]. apply Hcons. tauto.
      * rewrite decide_False; [done|]. rewrite Hcons. tauto.
Qed.

Lemma text_loop_NoDup (P : string → Prop) `{∀ c, Decision (P c)}
    (g : string → V) (l : list string) d :
  NoDup (dict_keys d) →
  NoDup (dict_keys
           (fold_left
              (λ row c,
                 if decide (P c) then row
                 else if decide (c ∈ dict_keys row) then row
                 else dict_set c (g c) row)
              l d)).
Proof.
  revert d. induction l as [|c l IH]; intros d Hd; cbn [fold_left]; [done|].
  apply IH. repeat case_decide; [done|done|]. by apply NoDup_dict_set.
Qed.
End form_facts.

Lemma numeric_fields_elem k :
  k ∈ numeric_fields ↔
    k = "Gross Wt. (lbs)" ∨ k = "Degree of saturation" ∨ k = "CBR".
Proof.
  unfold numeric_fields. rewrite !elem_of_cons, elem_of_nil. tauto.
Qed.

Lemma target_columns_elem k :
  k ∈ target_columns ↔
    k = "Aircraft Name" ∨ k = "Subgrade soil type"
    ∨ k = "Subgrade Categories (FAA)".
Proof.
  unfold target_columns. rewrite !elem_of_cons, elem_of_nil. tauto.
Qed.

(** What the steppers put in an empty row. *)
Lemma numeric_inputs_get w num_cols k :
  dict_get (numeric_inputs w num_cols []) k =
    if decide (k ∈ numeric_fields ∧ k ∈ num_cols)
    then Some (PyFloat (number_input w (stepper_label k)))
    else None.
Proof.
  unfold numeric_inputs. rewrite !dict_get_set_if. cbn [dict_get].
  unfold stepper_label.
  destruct (decide (k ∈ numeric_fields ∧ k ∈ num_cols)) as [[Hk Hn]|Hk].
  - apply numeric_fields_elem in Hk as [-> | [-> | ->]].
    + rewrite decide_False by (intros [_ ?]; discriminate).
      rewrite decide_False by (intros [_ ?]; discriminate).
      by rewrite decide_True.
    + rewrite decide_False by (intros [_ ?]; discriminate).
      by rewrite decide_True.
    + by rewrite decide_True.
  - rewrite numeric_fields_elem in Hk.
    rewrite !decide_False; [done|..]; intros [? Heq]; subst; tauto.
Qed.

Lemma numeric_inputs_NoDup w num_cols :
  NoDup (dict_keys (numeric_inputs w num_cols [])).
Proof.
  unfold numeric_inputs. do 3 apply NoDup_set_if. apply NoDup_nil_2.
Qed.

Ltac form_cases :=
  repeat case_decide; try done;
  rewrite ?numeric_fields_elem, ?target_columns_elem in *;
  repeat match goal with
         | H : _ ∧ _ |- _ => destruct H
         | H : _ ∨ _ |- _ => destruct H
         end;
  subst; try done;
  try (exfalso; tauto);
  try (exfalso;
       match goal with
       | H : ¬ (_ ∧ _) |- _ =>
           apply H; split; [first [done|tauto]|discriminate]
       end).

(** X11. What the form of [app.py] sends as the shared row: a
    known-numeric field of the numeric columns holds the number of its
    stepper; any other categorical column except "Aircraft Name" holds
    the text of its dropdown (soil type, FAA category) or of its free-text
    box; nothing else is in the row, and no key occurs twice. In
    particular the row never has "Aircraft Name", and a numeric column
    outside the three known fields gets no value. *)
Theorem batch_form_row w num_cols cat_cols choices :
  NoDup (dict_keys (BatchInputs.row_base w num_cols cat_cols choices))
  ∧ ∀ k,
      dict_get (BatchInputs.row_base w num_cols cat_cols choices) k =
        if decide (k ∈ numeric_fields ∧ k ∈ num_cols)
        then Some (PyFloat (number_input w (stepper_label k)))
        else if decide (k ∈ cat_cols ∧ k ≠ "Aircraft Name")
        then Some (PyStr (if decide (k ∈ target_columns)
                          then dropdown_or_text w choices k
                          else text_input w k))
        else None.
Proof.
  unfold BatchInputs.row_base. split.
  - apply (text_loop_NoDup (λ c, c ∈ target_columns)).
    do 2 apply NoDup_set_if. apply numeric_inputs_NoDup.
  - intros k.
    rewrite (text_loop_get (λ c, c ∈ target_columns)
               (λ c, PyStr (text_input w c))).
    rewrite !dict_get_set_if, numeric_inputs_get.
    form_cases.
Qed.

Lemma batch_form_row_witness :
  dict_get (BatchInputs.row_base example_widgets example_num_cols
              ["Aircraft Name"; "Runway"] []) "Aircraft Name" = None
  ∧ dict_get (BatchInputs.row_base example_widgets example_num_cols
                ["Aircraft Name"; "Runway"] []) "Runway"
    = Some (PyStr "09L").
Proof.
  destruct (batch_form_row example_widgets example_num_cols
              ["Aircraft Name"; "Runway"] []) as [_ Hget].
  split; rewrite Hget; reflexivity.
Defined.

(** X12. What the form of [app.py.py] sends as its row: as in the batch
    form for the known-numeric fields, and every categorical column,
    "Aircraft Name" included, holds the text of its dropdown (the three
    target columns) or of its free-text box; nothing else is in the row,
    and no key occurs twice. *)
Theorem single_form_row w num_cols cat_cols choices :
  NoDup (dict_keys (SingleInputs.row w num_cols cat_cols choices))
  ∧ ∀ k,
      dict_get (SingleInputs.row w num_cols cat_cols choices) k =
        if decide (k ∈ numeric_fields ∧ k ∈ num_cols)
        then Some (PyFloat (number_input w (stepper_label k)))
        else if decide (k ∈ cat_cols)
        then Some (PyStr (if decide (k ∈ target_columns)
                          then dropdown_or_text w choices k
                          else text_input w k))
        else None.
Proof.
  unfold SingleInputs.row. split.
  - refine (text_loop_NoDup (λ _, False) (λ c, PyStr (text_input w c))
              cat_cols _ _).
    unfold target_columns. cbn [fold_left].
    do 3 apply NoDup_set_if. apply numeric_inputs_NoDup.
  - intros k.
    etrans; [exact (text_loop_get (λ _, False)
                      (λ c, PyStr (text_input w c)) cat_cols _ k)|].
    unfold target_columns at 1. cbn [fold_left].
    rewrite !dict_get_set_if, numeric_inputs_get.
    form_cases.
Qed.

Lemma single_form_row_witness :
  dict_get (SingleInputs.row example_widgets example_num_cols
              ["Aircraft Name"; "Runway"] []) "Aircraft Name"
    = Some (PyStr "")
  ∧ dict_get (SingleInputs.row example_widgets example_num_cols
                ["Aircraft Name"; "Runway"] []) "CBR"
    = Some (PyFloat float_85).
Proof.
  destruct (single_form_row example_widgets example_num_cols
              ["Aircraft Name"; "Runway"] []) as [_ Hget].
  split; rewrite Hget; reflexivity.
Defined.

(** ** From the form to the table *)

(** A column of the reconciled table, row by row. *)
Lemma reconciled_column rt num_cols cat_cols rows X c col :
  Batch.reconcile rt num_cols cat_cols rows = Ok X →
  (c, col) ∈ frame X →
  c ∈ num_cols ++ cat_cols
  ∧ col = (λ r, match dict_get r c with
                | Some v => coerced rt c v
                | None => NaN
                end) <$> rows.
Proof.
  rewrite reconcile_spec. intros [= <-]. simpl.
  rewrite list_elem_of_fmap. intros (c' & [= -> ->] & Hc). split; [done|].
  unfold record_column. rewrite <- list_fmap_compose.
  apply list_fmap_ext; intros _ r _. simpl.
  rewrite coerced_row_get. by destruct (dict_get r c').
Qed.

(** The rows of a submission agree with the base row outside
    "Aircraft Name". *)
Lemma expand_rows_fields cat_cols row_base aircraft_selected rows :
  Batch.expand_rows cat_cols row_base aircraft_selected
    = Script [] (Done rows) →
  (rows = (λ ac, dict_set "Aircraft Name" (PyStr ac) row_base)
            <$> aircraft_selected
   ∧ "Aircraft Name" ∈ cat_cols)
  ∨ (rows = [row_base] ∧ "Aircraft Name" ∉ cat_cols).
Proof.
  destruct (decide ("Aircraft Name" ∈ cat_cols)) as [Hcat|Hcat].
  - destruct aircraft_selected as [|ac sel].
    + by rewrite expand_rows_empty.
    + rewrite expand_rows_selected by done. intros [= <-]. by left.
  - rewrite expand_rows_no_aircraft by done. intros [= <-]. by right.
Qed.

Lemma expand_rows_get cat_cols row_base aircraft_selected rows r k :
  Batch.expand_rows cat_cols row_base aircraft_selected
    = Script [] (Done rows) →
  r ∈ rows → k ≠ "Aircraft Name" ∨ "Aircraft Name" ∉ cat_cols →
  dict_get r k = dict_get row_base k.
Proof.
  intros Hrows Hr Hk.
  destruct (expand_rows_fields _ _ _ _ Hrows) as [[-> Hcat]|[-> Hcat]].
  - apply list_elem_of_fmap in Hr as (ac & -> & _).
    apply dict_get_set_ne. intros <-. tauto.
  - by apply list_elem_of_singleton in Hr as ->.
Qed.

(** X13. In the batch flow the table sent to [predict] holds, in every row
    and for each known-numeric field among the numeric columns, exactly
    the number of its stepper: the coercion changes nothing the form
    sends. A numeric column outside the three known fields (and not also
    categorical) has no widget and holds NaN in every row. *)
Theorem batch_table_numbers rt w num_cols cat_cols choices aircraft_selected
    rows X k col :
  Batch.expand_rows cat_cols
    (BatchInputs.row_base w num_cols cat_cols choices) aircraft_selected
    = Script [] (Done rows) →
  Batch.reconcile rt num_cols cat_cols rows = Ok X →
  k ∈ num_cols → (k, col) ∈ frame X →
  (k ∈ numeric_fields →
     col = replicate (length rows)
                     (PyFloat (number_input w (stepper_label k))))
  ∧ (k ∉ numeric_fields → k ∉ cat_cols →
     col = replicate (length rows) NaN).
Proof.
  intros Hrows HX Hnum Hcol.
  destruct (reconciled_column _ _ _ _ _ _ _ HX Hcol) as [_ ->].
  destruct (batch_form_row w num_cols cat_cols choices) as [_ Hform].
  assert (∀ v, (∀ r, r ∈ rows →
                  match dict_get r k with
                  | Some v => coerced rt k v
                  | None => NaN
                  end = v) →
               (λ r, match dict_get r k with
                     | Some v => coerced rt k v
                     | None => NaN
                     end) <$> rows = replicate (length rows) v) as Hconst.
  { intros v Hv. clear Hrows HX Hcol.
    induction rows as [|r rows IH]; [done|]. rewrite fmap_cons. simpl.
    f_equal; [apply Hv; left | apply IH; intros ? ?; apply Hv; by right]. }
  split.
  - intros Hk. apply Hconst. intros r Hr.
    rewrite (expand_rows_get _ _ _ _ r k Hrows Hr).
    + rewrite Hform, decide_True by done.
      unfold coerced. rewrite decide_True by done.
      unfold cleaned. by case_decide.
    + left. intros ->. revert Hk. by rewrite numeric_fields_elem;
        intros [?|[?|?]].
  - intros Hk Hcat. apply Hconst. intros r Hr.
    rewrite (expand_rows_get _ _ _ _ r k Hrows Hr).
    + rewrite Hform, !decide_False; [done|tauto|tauto].
    + destruct (decide (k = "Aircraft Name")) as [->|?]; tauto.
Qed.

Lemma batch_table_numbers_witness :
  ∃ X col,
    Batch.reconcile example_runtime example_num_cols example_cat_cols
      example_form_rows = Ok X
    ∧ ("CBR", col) ∈ frame X
    ∧ col = [PyFloat float_85; PyFloat float_85; PyFloat float_85].
Proof.
  eexists _, _. split; [by vm_compute|].
  split; [do 2 right; left|].
  destruct (batch_table_numbers example_runtime example_widgets
              example_num_cols example_cat_cols [] example_selection
              example_form_rows _ "CBR"
              [PyFloat float_85; PyFloat float_85; PyFloat float_85]
              eq_refl (reconcile_spec _ _ _ _))
    as [Hk _].
  - by_eval.
  - vm_compute. do 2 right; left.
  - apply Hk. by_eval.
Defined.

(** X14. In the batch flow the "Aircraft Name" column of the table sent to
    [predict] lists the selected identifiers, one per row, in the order
    of the selection. *)
Theorem batch_table_aircraft rt num_cols cat_cols row_base aircraft_selected
    rows X col :
  "Aircraft Name" ∈ cat_cols →
  Batch.expand_rows cat_cols row_base aircraft_selected
    = Script [] (Done rows) →
  Batch.reconcile rt num_cols cat_cols rows = Ok X →
  ("Aircraft Name", col) ∈ frame X →
  col = PyStr <$> aircraft_selected.
Proof.
  intros Hcat Hrows HX Hcol.
  destruct (reconciled_column _ _ _ _ _ _ _ HX Hcol) as [_ ->].
  destruct (expand_rows_fields _ _ _ _ Hrows) as [[-> _]|[_ ?]]; [|done].
  rewrite <- list_fmap_compose. apply list_fmap_ext; intros _ ac _. simpl.
  rewrite dict_get_set_eq. unfold coerced.
  rewrite decide_False; [done|].
  rewrite numeric_fields_elem. by intros [?|[?|?]].
Qed.

Lemma batch_table_aircraft_witness :
  ∃ X col,
    Batch.reconcile example_runtime example_num_cols example_cat_cols
      example_rows = Ok X
    ∧ ("Aircraft Name", col) ∈ frame X
    ∧ col = [PyStr "A320"; PyStr "B737"; PyStr "B747"].
Proof.
  eexists _, _. split; [by vm_compute|].
  split; [do 3 right; left|].
  eapply (batch_table_aircraft example_runtime example_num_cols
            example_cat_cols example_row example_selection example_rows
            _ [PyStr "A320"; PyStr "B737"; PyStr "B747"]);
    [by_eval | reflexivity | apply reconcile_spec
    | vm_compute; do 3 right; left].
Defined.

(** X15. In the single-row flow every categorical column that is not a
    known-numeric field holds, in the table sent to [predict], the text
    entered for it: the form gives every categorical column a value, so
    none of them is missing. *)
Theorem single_table_categories rt pipeline w num_cols cat_cols choices c :
  get_expected_input_columns pipeline = Ok (num_cols, cat_cols) →
  c ∈ cat_cols → c ∉ numeric_fields →
  ∃ X, Single.build_input_df rt pipeline
         (SingleInputs.row w num_cols cat_cols choices) = Ok X
    ∧ c ∈ columns X
    ∧ ∀ col, (c, col) ∈ frame X →
        col = [PyStr (if decide (c ∈ target_columns)
                      then dropdown_or_text w choices c
                      else text_input w c)].
Proof.
  intros Hcols Hcat Hnum.
  rewrite (build_input_df_reconcile _ _ _ _ _ Hcols).
  eexists. split; [apply reconcile_spec|]. rewrite columns_fmap_key.
  split; [apply elem_of_app; by right|].
  intros col Hcol.
  destruct (reconciled_column rt num_cols cat_cols
              [SingleInputs.row w num_cols cat_cols choices] _ c col
              (reconcile_spec _ _ _ _) Hcol) as [_ ->].
  destruct (single_form_row w num_cols cat_cols choices) as [_ Hform].
  simpl. rewrite Hform, decide_False by tauto. rewrite decide_True by done.
  unfold coerced. by rewrite decide_False.
Qed.

Lemma single_table_categories_witness :
  ∃ X, Single.build_input_df example_runtime example_pipeline
         (SingleInputs.row example_widgets example_num_cols
            example_cat_cols []) = Ok X
    ∧ ∀ col, ("Aircraft Name", col) ∈ frame X → col = [PyStr ""].
Proof.
  destruct (single_table_categories example_runtime example_pipeline
              example_widgets example_num_cols example_cat_cols []
              "Aircraft Name" eq_refl) as (X & HX & _ & Hcol).
  - by_eval.
  - by_eval.
  - by exists X.
Defined.

(** ** The aircraft names typed as text *)

Lemma str_split_no_sep sep s piece :
  piece ∈ str_split sep s → str_contains sep piece = false.
Proof.
  revert piece. induction s as [|a s IH]; intros piece; simpl.
  - by intros ->%list_elem_of_singleton.
  - destruct (decide (a = sep)) as [->|Hne].
    + intros [->|?]%elem_of_cons; [done | by apply IH].
    + destruct (str_split sep s) as [|p ps]; simpl.
      * intros ->%list_elem_of_singleton. simpl.
        by rewrite bool_decide_false.
      * intros [->|?]%elem_of_cons.
        -- simpl. rewrite bool_decide_false by done. apply IH. left.
        -- apply IH. by right.
Qed.

(** The pieces, joined again, are the text. *)
Lemma str_join_split sep s :
  str_join (String sep "") (str_split sep s) = s.
Proof.
  induction s as [|a s IH]; simpl; [done|].
  destruct (decide (a = sep)) as [->|Hne].
  - destruct (str_split sep s) as [|p ps] eqn:Hs.
    + by destruct s; simpl in Hs; [|case_decide; [|destruct (str_split _ _)]].
    + simpl. by rewrite <- IH.
  - destruct (str_split sep s) as [|p ps] eqn:Hs.
    + by destruct s; simpl in Hs; [|case_decide; [|destruct (str_split _ _)]].
    + destruct ps; simpl in *; by rewrite <- IH.
Qed.

Lemma orb_intro_r (a b : bool) : b = true → a || b = true.
Proof. intros ->. by destruct a. Qed.

Lemma lstrip_contains c s :
  str_contains c (PyStr.lstrip s) = true → str_contains c s = true.
Proof.
  assert (∀ n s, (String.length s ≤ n)%nat →
            str_contains c (PyStr.lstrip s) = true →
            str_contains c s = true) as Hn.
  { clear s. induction n as [|n IH]; intros [|a [|b [|d s]]] Hlen;
      simpl in *; try lia; try done.
    - by destruct (PyStr.space1 a).
    - destruct (PyStr.space1 a).
      + destruct (PyStr.space1 b); simpl; [done|]. intros ->.
        by rewrite orb_true_r.
      + by destruct (PyStr.space2 a b).
    - intros Hc. destruct (PyStr.space1 a).
      + apply (IH (String b (String d s))) in Hc; [|simpl; lia].
        by apply orb_intro_r.
      + destruct (PyStr.space2 a b).
        * apply (IH (String d s)) in Hc; [|simpl; lia].
          by do 2 apply orb_intro_r.
        * destruct (PyStr.space3 a b d); [|done].
          apply (IH s) in Hc; [|lia]. by do 3 apply orb_intro_r. }
  by apply (Hn (String.length s)).
Qed.

Lemma lstrip_rev_contains c s :
  str_contains c (PyStr.lstrip_rev s) = true → str_contains c s = true.
Proof.
  assert (∀ n s, (String.length s ≤ n)%nat →
            str_contains c (PyStr.lstrip_rev s) = true →
            str_contains c s = true) as Hn.
  { clear s. induction n as [|n IH]; intros [|a [|b [|d s]]] Hlen;
      simpl in *; try lia; try done.
    - by destruct (PyStr.space1 a).
    - destruct (PyStr.space1 a).
      + destruct (PyStr.space1 b); simpl; [done|]. intros ->.
        by rewrite orb_true_r.
      + by destruct (PyStr.space2 b a).
    - intros Hc. destruct (PyStr.space1 a).
      + apply (IH (String b (String d s))) in Hc; [|simpl; lia].
        by apply orb_intro_r.
      + destruct (PyStr.space2 b a).
        * apply (IH (String d s)) in Hc; [|simpl; lia].
          by do 2 apply orb_intro_r.
        * destruct (PyStr.space3 d b a); [|done].
          apply (IH s) in Hc; [|lia]. by do 3 apply orb_intro_r. }
  by apply (Hn (String.length s)).
Qed.

Lemma rev_app_contains c s1 s2 :
  str_contains c (String.rev_app s1 s2)
  = str_contains c s1 || str_contains c s2.
Proof.
  revert s2. induction s1 as [|a s1 IH]; intros s2; simpl; [done|].
  rewrite IH. simpl. by destruct (bool_decide (a = c)), (str_contains c s1).
Qed.

Lemma rev_contains c s : str_contains c (String.rev s) = str_contains c s.
Proof. unfold String.rev. by rewrite rev_app_contains, orb_false_r. Qed.

(** Stripping adds no character. *)
Lemma strip_contains c s :
  str_contains c (PyStr.strip s) = true → str_contains c s = true.
Proof.
  unfold PyStr.strip, PyStr.rstrip. rewrite rev_contains.
  intros H%lstrip_rev_contains. rewrite rev_contains in H.
  by apply lstrip_contains.
Qed.

(** X17. When the schema has "Aircraft Name", the Excel gave no aircraft
    choices and the text typed for the names has nothing but whitespace
    between its commas (the empty default, for one), a press of Predict
    shows the warning and stops: no row is built and [predict] is not
    called. *)
Theorem blank_names_rejected rt pipeline w num_cols cat_cols choices :
  "Aircraft Name" ∈ cat_cols →
  dict_get choices "Aircraft Name" = None
  ∨ dict_get choices "Aircraft Name" = Some [] →
  (∀ piece,
     piece ∈ str_split "," (text_area w "Aircraft Name(s) (comma-separated)")
     → PyStr.strip piece = "") →
  BatchInputs.on_predict rt pipeline w num_cols cat_cols choices
    = Script [StWarning "Please select at least one aircraft."] Stopped.
Proof.
  intros Hcat Hchoices Hblank.
  assert (BatchInputs.aircraft_selected w cat_cols choices = []) as Hsel.
  { unfold BatchInputs.aircraft_selected. rewrite decide_True by done.
    assert (BatchInputs.parse_names
              (text_area w "Aircraft Name(s) (comma-separated)") = [])
      as Hnone.
    { unfold BatchInputs.parse_names.
      induction (str_split _ _) as [|p ps IH]; [done|].
      rewrite filter_cons, decide_False.
      - apply IH. intros ? ?. apply Hblank. by right.
      - intros Hp. apply Hp, Hblank. left. }
    by destruct Hchoices as [->| ->]. }
  unfold BatchInputs.on_predict, Batch.predict_handler.
  by rewrite Hsel, expand_rows_empty.
Qed.

Lemma blank_names_rejected_witness :
  BatchInputs.on_predict example_runtime example_pipeline
    {| number_input := λ _, float_85;
       selectbox := λ _ _, "";
       text_input := λ _, "";
       multiselect := λ _ _ dflt, dflt;
       text_area := λ _, " , ," |}
    example_num_cols example_cat_cols []
    = Script [StWarning "Please select at least one aircraft."] Stopped.
Proof.
  apply blank_names_rejected.
  - by_eval.
  - by left.
  - intros piece. simpl. rewrite !elem_of_cons, elem_of_nil.
    by intros [->|[->|[->|[]]]].
Defined.

(** ** Stripping twice *)

Lemma append_cons a (s t : string) : String a s +:+ t = String a (s +:+ t).
Proof. reflexivity. Qed.

Lemma append_nil_r (s : string) : s +:+ "" = s.
Proof. induction s as [|a s IH]; [done|]. by rewrite append_cons, IH. Qed.

Lemma rev_app_rev_app (u v w : string) :
  String.rev_app (String.rev_app u v) w = String.rev_app v (u +:+ w).
Proof.
  revert v w. induction u as [|a u IH]; intros v w; [done|].
  rewrite append_cons. cbn [String.rev_app]. by rewrite IH.
Qed.

Lemma rev_involutive (s : string) : String.rev (String.rev s) = s.
Proof.
  unfold String.rev. rewrite rev_app_rev_app. exact (append_nil_r s).
Qed.

Lemma rev_app_append (u v : string) :
  String.rev_app u v = String.rev u +:+ v.
Proof.
  unfold String.rev. revert v. induction u as [|a u IH]; intros v; simpl.
  - done.
  - rewrite (IH (String a v)), (IH (String a "")).
    generalize (String.rev_app u ""). intros x.
    induction x as [|b x IHx]; [done|]. by rewrite !append_cons, IHx.
Qed.

Lemma no_space_start_lstrip s : no_space_start (PyStr.lstrip s) = true.
Proof.
  assert (∀ n s, (String.length s ≤ n)%nat →
            no_space_start (PyStr.lstrip s) = true) as Hn.
  { clear s. induction n as [|n IH]; intros [|a [|b [|d s]]] Hlen;
      simpl in *; try lia; try done.
    - destruct (PyStr.space1 a) eqn:Ha; simpl; [done|]. by rewrite Ha.
    - destruct (PyStr.space1 a) eqn:Ha.
      + destruct (PyStr.space1 b) eqn:Hb; simpl; [done|]. by rewrite Hb.
      + destruct (PyStr.space2 a b) eqn:Hab; simpl; [done|].
        by rewrite Ha, Hab.
    - destruct (PyStr.space1 a) eqn:Ha.
      + apply (IH (String b (String d s))). simpl. lia.
      + destruct (PyStr.space2 a b) eqn:Hab.
        * apply (IH (String d s)). simpl. lia.
        * destruct (PyStr.space3 a b d) eqn:Habd.
          -- apply (IH s). lia.
          -- simpl. by rewrite Ha, Hab, Habd. }
  by apply (Hn (String.length s)).
Qed.

Lemma lstrip_fixed s : no_space_start s = true → PyStr.lstrip s = s.
Proof.
  destruct s as [|a [|b [|d s]]]; simpl; [done|..].
  - by destruct (PyStr.space1 a).
  - destruct (PyStr.space1 a); [done|]. by destruct (PyStr.space2 a b).
  - destruct (PyStr.space1 a); [done|].
    destruct (PyStr.space2 a b); [done|]. by destruct (PyStr.space3 a b d).
Qed.

Lemma no_space_end_lstrip_rev s : no_space_end (PyStr.lstrip_rev s) = true.
Proof.
  assert (∀ n s, (String.length s ≤ n)%nat →
            no_space_end (PyStr.lstrip_rev s) = true) as Hn.
  { clear s. induction n as [|n IH]; intros [|a [|b [|d s]]] Hlen;
      simpl in *; try lia; try done.
    - destruct (PyStr.space1 a) eqn:Ha; simpl; [done|]. by rewrite Ha.
    - destruct (PyStr.space1 a) eqn:Ha.
      + destruct (PyStr.space1 b) eqn:Hb; simpl; [done|]. by rewrite Hb.
      + destruct (PyStr.space2 b a) eqn:Hab; simpl; [done|].
        by rewrite Ha, Hab.
    - destruct (PyStr.space1 a) eqn:Ha.
      + apply (IH (String b (String d s))). simpl. lia.
      + destruct (PyStr.space2 b a) eqn:Hab.
        * apply (IH (String d s)). simpl. lia.
        * destruct (PyStr.space3 d b a) eqn:Habd.
          -- apply (IH s). lia.
          -- simpl. by rewrite Ha, Hab, Habd. }
  by apply (Hn (String.length s)).
Qed.

Lemma lstrip_rev_fixed s : no_space_end s = true → PyStr.lstrip_rev s = s.
Proof.
  destruct s as [|a [|b [|d s]]]; simpl; [done|..].
  - by destruct (PyStr.space1 a).
  - destruct (PyStr.space1 a); [done|]. by destruct (PyStr.space2 b a).
  - destruct (PyStr.space1 a); [done|].
    destruct (PyStr.space2 b a); [done|]. by destruct (PyStr.space3 d b a).
Qed.

(** Dropping the last byte keeps a clean start. *)
Lemma no_space_start_drop_last x a :
  no_space_start (x +:+ String a "") = true → no_space_start x = true.
Proof.
  destruct x as [|b [|c [|d x]]]; rewrite ?append_cons;
    cbn [no_space_start]; [done|..].
  - destruct (PyStr.space1 b); simpl; [done|]. by intros _.
  - destruct (PyStr.space1 b); simpl; [done|].
    destruct (PyStr.space2 b c); simpl; [done|]. by intros _.
  - done.
Qed.

Lemma rev_cons a (u : string) :
  String.rev (String a u) = String.rev u +:+ String a "".
Proof. unfold String.rev at 1. simpl. apply rev_app_append. Qed.

Lemma no_space_start_rev_tail a u :
  no_space_start (String.rev (String a u)) = true →
  no_space_start (String.rev u) = true.
Proof. rewrite rev_cons. apply no_space_start_drop_last. Qed.

(** Removing whitespace at the end keeps a clean start. *)
Lemma no_space_start_rstrip u :
  no_space_start (String.rev u) = true →
  no_space_start (String.rev (PyStr.lstrip_rev u)) = true.
Proof.
  assert (∀ n u, (String.length u ≤ n)%nat →
            no_space_start (String.rev u) = true →
            no_space_start (String.rev (PyStr.lstrip_rev u)) = true) as Hn.
  { clear u. induction n as [|n IH]; intros [|a [|b [|d u]]] Hlen Hu;
      cbn [PyStr.lstrip_rev String.length] in *; try lia; try done.
    - by destruct (PyStr.space1 a).
    - destruct (PyStr.space1 a).
      + apply no_space_start_rev_tail in Hu.
        by destruct (PyStr.space1 b).
      + by destruct (PyStr.space2 b a).
    - destruct (PyStr.space1 a).
      + apply no_space_start_rev_tail in Hu.
        apply (IH (String b (String d u))); [simpl; lia | done].
      + destruct (PyStr.space2 b a).
        * do 2 apply no_space_start_rev_tail in Hu.
          apply (IH (String d u)); [simpl; lia | done].
        * destruct (PyStr.space3 d b a); [|done].
          do 3 apply no_space_start_rev_tail in Hu.
          apply (IH u); [lia | done]. }
  by apply (Hn (String.length u)).
Qed.

(** [s.strip().strip() == s.strip()] *)
Lemma strip_idempotent s : PyStr.strip (PyStr.strip s) = PyStr.strip s.
Proof.
  unfold PyStr.strip. unfold PyStr.rstrip at 2 3.
  set (w := PyStr.lstrip_rev (String.rev (PyStr.lstrip s))).
  assert (no_space_start (String.rev w) = true) as Hstart.
  { apply no_space_start_rstrip. rewrite rev_involutive.
    apply no_space_start_lstrip. }
  rewrite (lstrip_fixed _ Hstart). unfold PyStr.rstrip.
  rewrite rev_involutive, lstrip_rev_fixed; [done|].
  apply no_space_end_lstrip_rev.
Qed.

Lemma replace_absent c new s :
  str_contains c s = false → PyStr.replace_char c new s = s.
Proof.
  induction s as [|a s IH]; simpl; [done|].
  intros [Ha Hs]%orb_false_iff. apply bool_decide_eq_false in Ha.
  rewrite decide_False by done. by rewrite IH.
Qed.

Lemma replace_removes c s :
  str_contains c (PyStr.replace_char c "" s) = false.
Proof.
  induction s as [|a s IH]; simpl; [done|].
  destruct (decide (a = c)) as [->|Hne]; simpl; [done|].
  by rewrite bool_decide_false.
Qed.

(** The cleaned saturation string is clean. *)
Lemma cleaned_fixed s :
  PyStr.strip
    (PyStr.replace_char "%" ""
       (PyStr.strip (PyStr.replace_char "%" "" s)))
  = PyStr.strip (PyStr.replace_char "%" "" s).
Proof.
  rewrite (replace_absent "%").
  - apply strip_idempotent.
  - destruct (str_contains "%" (PyStr.strip _)) eqn:Hc; [|done].
    apply strip_contains in Hc. by rewrite replace_removes in Hc.
Qed.

Lemma py_float_float rt v f :
  py_float rt v = Ok f → (∃ x, f = PyFloat x) ∧ py_float rt f = Ok f.
Proof.
  destruct v as [|b|n|x|s]; simpl; [done|..].
  - intros [= <-]. eauto.
  - destruct (PyFloat.of_int n); [intros [= <-]; eauto | done].
  - intros [= <-]. eauto.
  - destruct (float_of_str rt s); [intros [= <-]; eauto | done].
Qed.

Lemma converted_cases rt c :
  converted rt c = c ∨ ∃ x, converted rt c = PyFloat x.
Proof.
  unfold converted. destruct (in_none_or_empty c); [by left|].
  destruct (py_float rt c) as [f|e] eqn:Hf; [|by left].
  right. by apply py_float_float in Hf as [? _].
Qed.

Lemma converted_stable rt c f :
  in_none_or_empty (converted rt c) = false →
  py_float rt (converted rt c) = Ok f → f = converted rt c.
Proof.
  unfold converted. destruct (in_none_or_empty c) eqn:Hc; [congruence|].
  destruct (py_float rt c) as [f0|e] eqn:Hf; [|congruence].
  intros _. apply py_float_float in Hf as [_ Hf]. congruence.
Qed.

(** X20. Coercing a coerced row changes nothing: the coercion is
    idempotent. *)
Theorem coercion_idempotent rt d dd :
  Batch.coerce_numeric rt d = Ok dd → Batch.coerce_numeric rt dd = Ok dd.
Proof.
  intros Hdd. destruct (coerce_numeric_spec rt d) as (dd' & Hdd' & _ & Hget).
  rewrite Hdd in Hdd'. injection Hdd' as <-.
  rewrite coerce_numeric_unfold.
  assert (clean_saturation dd = dd) as ->.
  { unfold clean_saturation.
    destruct (dict_get dd "Degree of saturation") as [v1|] eqn:Hv1; [|done].
    destruct v1 as [| | | |s1]; try done.
    apply dict_set_same. rewrite Hv1. do 2 f_equal.
    rewrite Hget in Hv1.
    destruct (dict_get d "Degree of saturation") as [v|]; [|done].
    injection Hv1 as Hv1. unfold coerced in Hv1.
    rewrite decide_True in Hv1 by by_eval.
    destruct (converted_cases rt (cleaned "Degree of saturation" v))
      as [Hc|[x Hc]]; rewrite Hc in Hv1; [|done].
    unfold cleaned in Hv1. rewrite decide_True in Hv1 by done.
    destruct v; try done. injection Hv1 as <-. symmetry.
    apply cleaned_fixed. }
  assert (∀ k, k ∈ numeric_fields → coerce_step rt dd k = Ok dd) as Hstep.
  { intros k Hk. unfold coerce_step.
    destruct (dict_get dd k) as [v1|] eqn:Hv1; [|done].
    rewrite Hget in Hv1. destruct (dict_get d k) as [v|] eqn:Hd; [|done].
    injection Hv1 as <-. unfold coerced.
    destruct (decide (k ∈ numeric_fields)) as [_|?]; [|done].
    destruct (in_none_or_empty (converted rt (cleaned k v))) eqn:Hne;
      [done|].
    destruct (py_float rt (converted rt (cleaned k v))) as [f|e] eqn:Hf;
      [|done].
    simpl. apply (converted_stable _ _ _ Hne) in Hf as ->.
    f_equal. apply dict_set_same.
    rewrite Hget, Hd. simpl. unfold coerced.
    by destruct (decide (k ∈ numeric_fields)). }
  change (for_in numeric_fields (coerce_step rt) dd)
    with (for_in ["Gross Wt. (lbs)"; "Degree of saturation"; "CBR"]
            (coerce_step rt) dd).
  cbn [for_in]. rewrite Hstep by by_eval. cbn [mbind res_bind].
  rewrite Hstep by by_eval. cbn [mbind res_bind].
  by rewrite Hstep by by_eval.
Qed.

Lemma coercion_idempotent_witness :
  ∃ dd, Batch.coerce_numeric example_runtime example_row = Ok dd
    ∧ Batch.coerce_numeric example_runtime dd = Ok dd.
Proof.
  eexists. split; [by vm_compute|].
  apply (coercion_idempotent example_runtime example_row). by vm_compute.
Defined.

(** ** Values without surrounding whitespace *)

(** X7. For a target column that exactly one column of the sheet carries
    (after trimming the labels), the Choice Table lists exactly the
    non-empty trimmed strings of the cells that are not missing: nothing
    else gets in and no such value is lost. Every listed value is its own
    [strip]: it has no whitespace around it. *)
Theorem choice_values_exact rt wb df choices col cells :
  load_sheet wb = Ok df →
  extract_choices_from_excel rt wb = Ok choices →
  col ∈ target_columns →
  filter (λ p, p.1 = col) (relabel rt df) = [(col, cells)] →
  ∃ vals, dict_get choices col = Some vals
    ∧ (∀ v, v ∈ vals ↔
         v ≠ "" ∧ ∃ x, x ∈ cells ∧ ¬ isna x
                       ∧ PyStr.strip (py_str rt x) = v)
    ∧ (∀ v, v ∈ vals → PyStr.strip v = v).
Proof.
  intros Hdf Hchoices Htarget Hcol.
  unfold extract_choices_from_excel in Hchoices. rewrite Hdf in Hchoices.
  cbn [mbind res_bind] in Hchoices.
  destruct (choices_loop_get _ _ _ _ _ Hchoices col) as [Hin _].
  destruct Hin as (vals & Hvals & Hget); [done| |].
  { assert ((col, cells) ∈ filter (λ p, p.1 = col) (relabel rt df)) as Hin
      by (rewrite Hcol; left).
    apply list_elem_of_filter in Hin as [_ Hin].
    apply list_elem_of_fmap. by exists (col, cells). }
  unfold stripped_strings in Hvals. rewrite Hcol in Hvals.
  injection Hvals as <-. eexists. split; [done|].
  assert (∀ v, v ∈ sorted_choices
                     ((λ v, PyStr.strip (py_str rt v))
                        <$> filter (λ v, ¬ isna v) cells) ↔
               v ≠ "" ∧ ∃ x, x ∈ cells ∧ ¬ isna x
                             ∧ PyStr.strip (py_str rt x) = v) as Hexact.
  { intros v. rewrite sorted_choices_elem_of, list_elem_of_fmap. split.
    - intros [Hne (x & -> & Hin)]. split; [done|]. exists x.
      apply list_elem_of_filter in Hin as [? ?]. by split_and!.
    - intros [Hne (x & Hin & Hna & <-)]. split; [done|]. exists x.
      split; [done|]. by apply list_elem_of_filter. }
  split; [done|].
  intros v (_ & x & _ & _ & <-)%Hexact. apply strip_idempotent.
Qed.

Lemma choice_values_exact_witness :
  ∃ vals,
    extract_choices_from_excel example_runtime example_workbook
      = Ok [("Aircraft Name", vals)]
    ∧ ("B737" ∈ vals) ∧ ("" ∉ vals).
Proof.
  destruct (choice_values_exact example_runtime example_workbook
              example_sheet
              [("Aircraft Name", ["12"; "A320"; "B737"])]
              "Aircraft Name"
              [PyStr "B737 "; PyNone; PyStr "A320"; PyStr ""; PyStr "B737";
               PyInt 12])
    as (vals & Hget & Hvals & _).
  - reflexivity.
  - by vm_compute.
  - by_eval.
  - by vm_compute.
  - injection Hget as <-. eexists. split_and!; [by vm_compute| |].
    + apply Hvals. split; [discriminate|]. exists (PyStr "B737").
      split_and!; [do 4 right; left | by intros [] | by vm_compute].
    + intros Hin. by apply Hvals in Hin as [? _].
Defined.

(** X16. Every aircraft name read from the comma-separated text is
    non-empty, has no comma in it and no whitespace around it. *)
Theorem parsed_names_clean free a :
  a ∈ BatchInputs.parse_names free →
  a ≠ "" ∧ str_contains "," a = false ∧ PyStr.strip a = a.
Proof.
  unfold BatchInputs.parse_names.
  intros (piece & -> & [Hne Hin]%list_elem_of_filter)%list_elem_of_fmap.
  split_and!; [done| |apply strip_idempotent].
  apply str_split_no_sep in Hin.
  destruct (str_contains "," (PyStr.strip piece)) eqn:Hc; [|done].
  apply strip_contains in Hc. congruence.
Qed.

Lemma parsed_names_clean_witness :
  "B737" ≠ "" ∧ str_contains "," "B737" = false ∧ PyStr.strip "B737" = "B737".
Proof.
  apply (parsed_names_clean " A320 ,, B737,  " "B737"). by_eval.
Defined.

(** ** The two flows side by side *)


